(** * Shared Python gateway coordinator

    A shallow embedding of the gateway coordinator module
    (the module that exports [acquireSharedGateway],
    [releaseSharedGateway], [getSharedGatewayUrl],
    [isSharedGatewayActive] and [shutdownSharedGateway]) and the
    properties its specification states.

    The module is stateful and talks to the file system, the process
    table, the network and the clock.  Module-level variables and the
    persisted [gateway.json] live in a [World] record that every
    operation threads; what the outside answers (does a file exist, does
    the probe succeed, does a write throw) is an oracle argument of the
    operation, so every theorem holds for every behaviour of the
    outside.  Exceptions are a result type, [try]/[catch] is a
    combinator. *)

From stdpp Require Import gmap strings list.
From Equations Require Import Equations.
From Stdlib Require Import ZArith NArith Lia DecimalString.

Open Scope string_scope.
Open Scope Z_scope.

(** ** Constants *)

Definition GATEWAY_STARTUP_TIMEOUT_MS : N := 30000.
Definition GATEWAY_IDLE_TIMEOUT_MS : N := 30000.
Definition POLL_INTERVAL_MS : N := 100.

Definition DEFAULT_ENV_ALLOWLIST : gset string :=
  list_to_set
    [ "PATH"; "HOME"; "USER"; "LOGNAME"; "SHELL"; "LANG"; "LC_ALL";
      "LC_CTYPE"; "LC_MESSAGES"; "TERM"; "TERM_PROGRAM";
      "TERM_PROGRAM_VERSION"; "TMPDIR"; "TEMP"; "TMP"; "XDG_CACHE_HOME";
      "XDG_CONFIG_HOME"; "XDG_DATA_HOME"; "XDG_RUNTIME_DIR";
      "SSH_AUTH_SOCK"; "SSH_AGENT_PID"; "CONDA_PREFIX";
      "CONDA_DEFAULT_ENV"; "VIRTUAL_ENV"; "PYTHONPATH" ].

Definition DEFAULT_ENV_ALLOW_PREFIXES : list string :=
  [ "LC_"; "XDG_"; "OMP_" ].

Definition DEFAULT_ENV_DENYLIST : gset string :=
  list_to_set
    [ "OPENAI_API_KEY"; "ANTHROPIC_API_KEY"; "GOOGLE_API_KEY";
      "GEMINI_API_KEY"; "OPENROUTER_API_KEY"; "PERPLEXITY_API_KEY";
      "EXA_API_KEY"; "AZURE_OPENAI_API_KEY"; "MISTRAL_API_KEY" ].

(** ** Environments

    A [Record<string, string | undefined>]: a key may be present with
    the value [undefined], which is [Some None] here. *)

Abbreviation Env := (gmap string (option string)).

(** [env.KEY] as JavaScript reads it: absent and [undefined] are the
    same to the reader. *)
Definition env_get (env : Env) (key : string) : option string :=
  mjoin (env !! key).

(** Truthiness of a [string | null | undefined]. *)
Definition truthy (v : option string) : bool :=
  match v with
  | Some s => negb (String.eqb s "")
  | None => false
  end.

(** ** EnvSanitizer: [filterEnv] *)

Section FilterEnv.
Variables (denylist allowlist : gset string) (prefixes : list string).

(** One iteration of the [for (const [key, value] of ...)] loop. *)
Definition filterEnvStep (filtered : Env) (entry : string * option string) : Env :=
  let '(key, value) := entry in
  match value with
  | None => filtered
  | Some v =>
      if bool_decide (key ∈ denylist) then filtered
      else if bool_decide (key ∈ allowlist) then <[key := Some v]> filtered
      else if existsb (fun p => String.prefix p key) prefixes
           then <[key := Some v]> filtered
      else filtered
  end.

Definition filterEnvWith (env : Env) : Env :=
  foldl filterEnvStep ∅ (map_to_list env).
End FilterEnv.

Definition filterEnv (env : Env) : Env :=
  filterEnvWith DEFAULT_ENV_DENYLIST DEFAULT_ENV_ALLOWLIST
                DEFAULT_ENV_ALLOW_PREFIXES env.

(** ** The persisted record and the module state *)

Record GatewayInfo := mkGatewayInfo {
  url : string;
  pid : Z;
  startedAt : Z;
  refCount : Z;
  cwd : string;
}.

(** [{ ...info, refCount: n }] *)
Definition with_refCount (info : GatewayInfo) (n : Z) : GatewayInfo :=
  {| url := url info; pid := pid info; startedAt := startedAt info;
     refCount := n; cwd := cwd info |}.

(** ** Numbers

    [refCount] is a JSON number, and the code computes with it as an
    IEEE 754 double: [JSON.parse] rounds the literal of the file to the
    nearest double, and so do [+] and [-].  On integers that is
    rounding to 53 significant bits, ties to the even significand;
    integers up to [2^53] in magnitude are exact.  (A literal beyond the
    largest double, [2^1024] and up, parses to [Infinity], which is no
    count; integer literals below that are what this covers.  [pid] and
    [startedAt] are numbers too; they are taken as the code writes
    them, a process id and a time in milliseconds, which are exact.) *)
Definition to_double (n : Z) : Z :=
  if Z.abs n <=? 2 ^ 53 then n
  else
    let e := Z.log2 (Z.abs n) - 52 in
    let q := Z.abs n / 2 ^ e in
    let r := Z.abs n mod 2 ^ e in
    let half := 2 ^ (e - 1) in
    let q' := if r <? half then q
              else if half <? r then q + 1
              else if Z.even q then q else q + 1 in
    Z.sgn n * (q' * 2 ^ e).

(** [a + b] and [a - b] on numbers. *)
Definition js_add (a b : Z) : Z := to_double (a + b).
Definition js_sub (a b : Z) : Z := to_double (a - b).

(** [JSON.parse(content) as GatewayInfo]: the record of the file with
    its count as the double the literal parses to. *)
Definition parseGatewayInfo (info : GatewayInfo) : GatewayInfo :=
  with_refCount info (to_double (refCount info)).

Record AcquireResult := mkAcquireResult {
  res_url : string;
  isShared : bool;
}.

(** What is at [gateway.json]: nothing, content that cannot be read or
    parsed, or the text of a record (its count an integer literal). *)
Inductive StoreFile :=
| NoFile
| Unreadable
| Stored (info : GatewayInfo).

(** What the module does to the process table. *)
Inductive Event :=
| EvSpawn (p : Z) (argv : list string) (dir : string) (env : Env)
| EvKill (p : Z).

Definition is_spawn (e : Event) : bool :=
  match e with EvSpawn _ _ _ _ => true | EvKill _ => false end.

Definition is_kill_of (p : Z) (e : Event) : bool :=
  match e with EvKill q => bool_decide (p = q) | _ => false end.

Record World := mkWorld {
  store : StoreFile;                     (* gateway.json *)
  processEnv : gmap string string;       (* process.env *)
  localGatewayProcess : option Z;        (* the Subprocess, by pid *)
  localGatewayUrl : option string;
  idleShutdownTimer : option nat;        (* timer handle *)
  isCoordinatorInitialized : bool;
  pendingTimers : list nat;              (* armed idle-shutdown callbacks *)
  nextTimer : nat;
  trace : list Event;                    (* oldest first *)
}.

(** The module as freshly loaded in an invocation. *)
Definition freshWorld (f : StoreFile) (penv : gmap string string) : World :=
  {| store := f; processEnv := penv; localGatewayProcess := None;
     localGatewayUrl := None; idleShutdownTimer := None;
     isCoordinatorInitialized := false; pendingTimers := [];
     nextTimer := 0%nat; trace := [] |}.

Definition set_store (f : StoreFile) (w : World) : World :=
  {| store := f; processEnv := processEnv w;
     localGatewayProcess := localGatewayProcess w;
     localGatewayUrl := localGatewayUrl w;
     idleShutdownTimer := idleShutdownTimer w;
     isCoordinatorInitialized := isCoordinatorInitialized w;
     pendingTimers := pendingTimers w; nextTimer := nextTimer w;
     trace := trace w |}.

Definition set_local (p : option Z) (u : option string) (w : World) : World :=
  {| store := store w; processEnv := processEnv w;
     localGatewayProcess := p; localGatewayUrl := u;
     idleShutdownTimer := idleShutdownTimer w;
     isCoordinatorInitialized := isCoordinatorInitialized w;
     pendingTimers := pendingTimers w; nextTimer := nextTimer w;
     trace := trace w |}.

Definition set_timer (t : option nat) (pend : list nat) (next : nat)
    (w : World) : World :=
  {| store := store w; processEnv := processEnv w;
     localGatewayProcess := localGatewayProcess w;
     localGatewayUrl := localGatewayUrl w;
     idleShutdownTimer := t;
     isCoordinatorInitialized := isCoordinatorInitialized w;
     pendingTimers := pend; nextTimer := next;
     trace := trace w |}.

Definition set_initialized (b : bool) (w : World) : World :=
  {| store := store w; processEnv := processEnv w;
     localGatewayProcess := localGatewayProcess w;
     localGatewayUrl := localGatewayUrl w;
     idleShutdownTimer := idleShutdownTimer w;
     isCoordinatorInitialized := b;
     pendingTimers := pendingTimers w; nextTimer := nextTimer w;
     trace := trace w |}.

Definition emit (e : Event) (w : World) : World :=
  {| store := store w; processEnv := processEnv w;
     localGatewayProcess := localGatewayProcess w;
     localGatewayUrl := localGatewayUrl w;
     idleShutdownTimer := idleShutdownTimer w;
     isCoordinatorInitialized := isCoordinatorInitialized w;
     pendingTimers := pendingTimers w; nextTimer := nextTimer w;
     trace := trace w ++ [e] |}.

(** ** Exceptions and the state-and-exception monad *)

Inductive Error :=
| ShellConfigFailed          (* getShellConfig rejected *)
| PythonNotFound             (* "Python executable not found on PATH" *)
| PortAllocationFailed       (* allocatePort rejected *)
| SpawnFailed                (* Bun.spawn threw *)
| GatewayExited              (* "Gateway process exited during startup" *)
| GatewayStartupTimeout      (* "Gateway startup timeout" *)
| StoreError.                (* mkdirSync / writeFileSync threw *)

Inductive Result (A : Type) :=
| Ok (a : A)
| Throw (e : Error).
Arguments Ok {A} a.
Arguments Throw {A} e.

Definition M (A : Type) : Type := World -> World * Result A.

Definition ret {A} (a : A) : M A := fun w => (w, Ok a).
Definition throw {A} (e : Error) : M A := fun w => (w, Throw e).
Definition bind {A B} (m : M A) (k : A -> M B) : M B :=
  fun w => match m w with
           | (w', Ok a) => k a w'
           | (w', Throw e) => (w', Throw e)
           end.
Definition modify (f : World -> World) : M unit := fun w => (f w, Ok tt).
Definition gets {A} (f : World -> A) : M A := fun w => (w, Ok (f w)).

(** [try { m } catch { return h }] *)
Definition try_catch {A} (m : M A) (h : Error -> A) : World -> World * A :=
  fun w => match m w with
           | (w', Ok a) => (w', a)
           | (w', Throw e) => (w', h e)
           end.

Notation "x <~ m ;; k" := (bind m (fun x => k))
  (at level 100, m at next level, right associativity).
Notation "m ;;; k" := (bind m (fun _ => k))
  (at level 100, right associativity).

Definition lift {A} (r : Result A) : M A := fun w => (w, r).

(** Unfolds the monad down to the pairs it stands for. *)
Ltac run :=
  unfold bind, ret, throw, lift, modify, gets, try_catch in *; cbn in *.

(** ** What the outside answers *)

(** The file system during one operation.  Each operation touches the
    directory, writes the file and unlinks it at most once. *)
Record FsOracle := mkFs {
  dir_exists : bool;      (* existsSync(getGatewayDir()) *)
  mkdir_ok : bool;        (* mkdirSync returns rather than throws *)
  write_ok : bool;        (* writeFileSync returns rather than throws *)
  unlink_ok : bool;       (* unlinkSync returns rather than throws *)
}.

(** The process table and the network during a liveness check. *)
Record ProbeOracle := mkProbe {
  signal0_ok : Z -> bool;             (* process.kill(pid, 0) returns *)
  fetch : string -> option bool;      (* Some response.ok, None if it rejects *)
}.

(** [node:path] and [process.platform]. *)
Record Platform := mkPlatform {
  win32 : bool;
  join : string -> string -> string;
}.

Definition delimiter (plat : Platform) : string :=
  if win32 plat then ";" else ":".

(** What [server.listen(0, "127.0.0.1", ...)] leads to. *)
Inductive ListenOutcome :=
| ListenError                            (* the "error" event *)
| ListenNoAddress                        (* address() is not an object *)
| Listening (port : N) (close_ok : bool).

(** One turn of the startup loop as the loop sees it: the [exited] flag
    at the loop head, the answer of the probe, and how much longer than
    the 100 ms sleep the turn took. *)
Record PollObs := mkPoll {
  obs_exited : bool;
  obs_fetch : option bool;
  obs_extra : N;
}.

Record LaunchOracle := mkLaunch {
  platform : Platform;
  shell_config : option (string * Env);   (* getShellConfig(), None if it rejects *)
  file_exists : string -> bool;           (* Bun.file(p).exists() *)
  which : string -> option string;        (* Bun.which(name) *)
  snapshot : option string;               (* getOrCreateSnapshot, null on failure *)
  net_listen : ListenOutcome;
  spawn_pid : option Z;                   (* Bun.spawn(...).pid, None if it throws *)
  polls : nat -> PollObs;
  date_now : Z;                           (* Date.now() for startedAt *)
}.

Record AcquireOracle := mkAcquire {
  acq_fs : FsOracle;
  acq_probe : ProbeOracle;
  acq_launch : LaunchOracle;
}.

(** ** StateStore *)

Definition ensureGatewayDir (fs : FsOracle) : M unit :=
  if dir_exists fs then ret tt
  else if mkdir_ok fs then ret tt else throw StoreError.

Definition readGatewayInfo (w : World) : option GatewayInfo :=
  match store w with
  | Stored info => Some (parseGatewayInfo info)
  | NoFile | Unreadable => None
  end.

Definition writeGatewayInfo (fs : FsOracle) (info : GatewayInfo) : M unit :=
  if write_ok fs then modify (set_store (Stored info)) else throw StoreError.

Definition clearGatewayInfo (fs : FsOracle) (w : World) : World :=
  match store w with
  | NoFile => w
  | Unreadable | Stored _ => if unlink_ok fs then set_store NoFile w else w
  end.

(** ** HealthChecker *)

Definition isPidRunning (o : ProbeOracle) (p : Z) : bool :=
  if signal0_ok o p then true else false.

(** [response] is what [fetch(`${url}/api/kernelspecs`)] came to. *)
Definition isGatewayHealthy (response : option bool) : bool :=
  match response with
  | Some ok => ok
  | None => false
  end.

Definition isGatewayAlive (o : ProbeOracle) (info : GatewayInfo) : bool :=
  if negb (isPidRunning o (pid info)) then false
  else isGatewayHealthy (fetch o (url info ++ "/api/kernelspecs")).

(** ** RuntimeResolver *)

Definition resolveVenvPath (plat : Platform) (exists_ : string -> bool)
    (penv : gmap string string) (dir : string) : option string :=
  if truthy (penv !! "VIRTUAL_ENV") then penv !! "VIRTUAL_ENV"
  else
    let candidates := [join plat dir ".venv"; join plat dir "venv"] in
    List.find exists_ candidates.

(** [a ?? b] *)
Definition nullish_or {A} (a b : option A) : option A :=
  match a with Some x => Some x | None => b end.

Definition resolvePythonRuntime (plat : Platform) (exists_ : string -> bool)
    (which_ : string -> option string) (penv : gmap string string)
    (dir : string) (baseEnv : Env) : Result (string * Env) :=
  let env := baseEnv in
  let venvPath :=
    nullish_or (env_get env "VIRTUAL_ENV") (resolveVenvPath plat exists_ penv dir) in
  let fallback (env : Env) :=
    let pythonPath := nullish_or (which_ "python") (which_ "python3") in
    match pythonPath with
    | Some p => if truthy (Some p) then Ok (p, env) else Throw PythonNotFound
    | None => Throw PythonNotFound
    end in
  match venvPath with
  | Some v =>
      if truthy (Some v) then
        let env := <["VIRTUAL_ENV" := Some v]> env in
        let binDir := join plat v (if win32 plat then "Scripts" else "bin") in
        let pythonCandidate :=
          join plat binDir (if win32 plat then "python.exe" else "python") in
        if exists_ pythonCandidate then
          let path :=
            if truthy (env_get env "PATH")
            then binDir ++ delimiter plat ++ default "" (env_get env "PATH")
            else binDir in
          Ok (pythonCandidate, <["PATH" := Some path]> env)
        else fallback env
      else fallback env
  | None => fallback env
  end.

(** ** PortAllocator *)

Definition allocatePort (l : ListenOutcome) : Result N :=
  match l with
  | ListenError => Throw PortAllocationFailed
  | ListenNoAddress => Throw PortAllocationFailed
  | Listening port true => Ok port
  | Listening port false => Throw PortAllocationFailed
  end.

(** ** ProcessLauncher *)

Definition show_port (port : N) : string :=
  NilZero.string_of_uint (N.to_uint port).

Definition gateway_argv (pythonPath : string) (port : N) : list string :=
  [ pythonPath; "-m"; "kernel_gateway";
    "--KernelGatewayApp.ip=127.0.0.1";
    "--KernelGatewayApp.port=" ++ show_port port;
    "--KernelGatewayApp.port_retries=0";
    "--KernelGatewayApp.allow_origin=*";
    "--JupyterApp.answer_yes=true" ].

(** The environment of the spawned process. *)
Definition kernelEnvOf (plat : Platform) (dir : string) (runtimeEnv : Env)
    (snapshotPath : option string) : Env :=
  let kernelEnv :=
    <["OMP_SHELL_SNAPSHOT" := snapshotPath]>
      (<["PYTHONUNBUFFERED" := Some "1"]> runtimeEnv) in
  let parts :=
    List.filter truthy [Some dir; env_get kernelEnv "PYTHONPATH"] in
  let pythonPathParts :=
    String.concat (delimiter plat) (List.map (default "") parts) in
  if truthy (Some pythonPathParts)
  then <["PYTHONPATH" := Some pythonPathParts]> kernelEnv
  else kernelEnv.

(** Keeps the equation when a [with] clause case-splits on a test. *)
Definition inspect {A} (a : A) : {b : A | a = b} := exist _ a eq_refl.

Inductive StartupOutcome :=
| BecameHealthy
| ExitedDuringStartup
| StartupTimedOut.

(** The [while (Date.now() - startTime < GATEWAY_STARTUP_TIMEOUT_MS)]
    loop: [k] counts the turns, [elapsed] is [Date.now() - startTime] at
    the head of turn [k].  A turn that goes round sleeps 100 ms, so the
    clock has advanced by that much and by what the turn's probe took.
    Returns how the loop ended and in which turn. *)
Equations? startupLoop (obs : nat -> PollObs) (k : nat) (elapsed : N)
    : StartupOutcome * nat
    by wf (N.to_nat (GATEWAY_STARTUP_TIMEOUT_MS - elapsed)) lt :=
  startupLoop obs k elapsed with inspect (elapsed <? GATEWAY_STARTUP_TIMEOUT_MS)%N := {
    | exist _ false _ => (StartupTimedOut, k)
    | exist _ true Hlt with obs_exited (obs k) := {
      | true => (ExitedDuringStartup, k)
      | false with isGatewayHealthy (obs_fetch (obs k)) := {
        | true => (BecameHealthy, k)
        | false =>
            startupLoop obs (S k)
              (elapsed + POLL_INTERVAL_MS + obs_extra (obs k))%N } } }.
Proof.
  apply N.ltb_lt in Hlt. unfold GATEWAY_STARTUP_TIMEOUT_MS, POLL_INTERVAL_MS in *. lia.
Qed.

(** From [let exited = false] to the end of [startGatewayProcess]. *)
Definition awaitStartup (gatewayUrl : string) (p : Z) (obs : nat -> PollObs)
    : M (string * Z) :=
  match fst (startupLoop obs 0 0%N) with
  | BecameHealthy =>
      modify (set_local (Some p) (Some gatewayUrl)) ;;;
      ret (gatewayUrl, p)
  | ExitedDuringStartup => throw GatewayExited
  | StartupTimedOut =>
      modify (emit (EvKill p)) ;;;      (* killProcessTree(gatewayProcess.pid) *)
      throw GatewayStartupTimeout
  end.

Definition startGatewayProcess (dir : string) (o : LaunchOracle) : M (string * Z) :=
  cfg <~ lift (from_option Ok (Throw ShellConfigFailed) (shell_config o)) ;;
  let env := snd cfg in
  let filteredEnv := filterEnv env in
  penv <~ gets processEnv ;;
  runtime <~ lift (resolvePythonRuntime (platform o) (file_exists o) (which o)
                     penv dir filteredEnv) ;;
  let snapshotPath := snapshot o in
  let kernelEnv := kernelEnvOf (platform o) dir (snd runtime) snapshotPath in
  gatewayPort <~ lift (allocatePort (net_listen o)) ;;
  let gatewayUrl := "http://127.0.0.1:" ++ show_port gatewayPort in
  p <~ lift (from_option Ok (Throw SpawnFailed) (spawn_pid o)) ;;
  modify (emit (EvSpawn p (gateway_argv (fst runtime) gatewayPort) dir kernelEnv)) ;;;
  awaitStartup gatewayUrl p (polls o).

(** ** IdleReclaimer *)

(** [clearTimeout(t)] *)
Definition clearTimeout (t : nat) (pend : list nat) : list nat :=
  List.remove Nat.eq_dec t pend.

Definition shutdownLocalGateway (w : World) : World :=
  match localGatewayProcess w with
  | Some p =>
      (* killProcessTree is a helper of utils/shell returning void; its
         effect is the kill.  The catch around it only logs. *)
      set_local None None (emit (EvKill p) w)
  | None => w
  end.

(** The body of the callback [scheduleIdleShutdown] arms. *)
Definition idleShutdownCallback (fs : FsOracle) (w : World) : World :=
  let w1 :=
    match readGatewayInfo w with
    | Some info =>
        if refCount info =? 0
        then clearGatewayInfo fs (shutdownLocalGateway w)
        else w
    | None => w
    end in
  set_timer None (pendingTimers w1) (nextTimer w1) w1.

Definition scheduleIdleShutdown (w : World) : World :=
  let pend :=
    match idleShutdownTimer w with
    | Some t => clearTimeout t (pendingTimers w)
    | None => pendingTimers w
    end in
  let t := nextTimer w in
  set_timer (Some t) (pend ++ [t]) (S t) w.

Definition cancelIdleShutdown (w : World) : World :=
  match idleShutdownTimer w with
  | Some t => set_timer None (clearTimeout t (pendingTimers w)) (nextTimer w) w
  | None => w
  end.

(** The event loop reaches the deadline of timer [t]: its callback runs
    if the timer is still armed, and nothing happens if it was cleared. *)
Definition fireTimer (t : nat) (fs : FsOracle) (w : World) : World :=
  if bool_decide (t ∈ pendingTimers w)
  then idleShutdownCallback fs
         (set_timer (idleShutdownTimer w) (clearTimeout t (pendingTimers w))
                    (nextTimer w) w)
  else w.

(** ** Coordinator *)

Definition isTestMode (w : World) : bool :=
  bool_decide (processEnv w !! "BUN_ENV" = Some "test")
  || bool_decide (processEnv w !! "NODE_ENV" = Some "test").

(** "Start new gateway": launch, then write the fresh record. *)
Definition launchFresh (dir : string) (o : AcquireOracle) : M AcquireResult :=
  started <~ startGatewayProcess dir (acq_launch o) ;;
  let info :=
    {| url := fst started; pid := snd started;
       startedAt := date_now (acq_launch o); refCount := 1; cwd := dir |} in
  writeGatewayInfo (acq_fs o) info ;;;
  modify (set_initialized true) ;;;
  ret {| res_url := fst started; isShared := true |}.

(** The [try] block of [acquireSharedGateway].  The function waits at
    [await isGatewayAlive(existingInfo)]; [during] is what happens to
    the world meanwhile: callbacks of this process that come due, and
    other invocations writing [gateway.json]. *)
Definition acquireBodyDuring (during : World -> World) (dir : string)
    (o : AcquireOracle) : M AcquireResult :=
  ensureGatewayDir (acq_fs o) ;;;
  existingInfo <~ gets readGatewayInfo ;;
  match existingInfo with
  | Some info =>
      modify during ;;;
      if isGatewayAlive (acq_probe o) info then
        let updatedInfo := with_refCount info (js_add (refCount info) 1) in
        writeGatewayInfo (acq_fs o) updatedInfo ;;;
        modify cancelIdleShutdown ;;;
        modify (set_initialized true) ;;;
        ret {| res_url := url info; isShared := true |}
      else
        (* stale: clean up, then start a new gateway *)
        modify (clearGatewayInfo (acq_fs o)) ;;;
        launchFresh dir o
  | None => launchFresh dir o
  end.

Definition acquireSharedGatewayDuring (during : World -> World) (dir : string)
    (o : AcquireOracle) (w : World) : World * option AcquireResult :=
  if isTestMode w then (w, None)
  else try_catch (r <~ acquireBodyDuring during dir o ;; ret (Some r))
         (fun _ => None) w.

(** The same when nothing else happens while the probe is awaited. *)
Definition acquireBody (dir : string) (o : AcquireOracle) : M AcquireResult :=
  acquireBodyDuring (fun w => w) dir o.

Definition acquireSharedGateway (dir : string) (o : AcquireOracle)
    (w : World) : World * option AcquireResult :=
  if isTestMode w then (w, None)
  else try_catch (r <~ acquireBody dir o ;; ret (Some r)) (fun _ => None) w.

(** The [try] block of [releaseSharedGateway]. *)
Definition releaseBody (fs : FsOracle) : M unit :=
  existing <~ gets readGatewayInfo ;;
  match existing with
  | None => ret tt
  | Some info =>
      let newRefCount := Z.max 0 (js_sub (refCount info) 1) in
      if newRefCount =? 0 then
        let updatedInfo := with_refCount info 0 in
        writeGatewayInfo fs updatedInfo ;;;
        modify scheduleIdleShutdown
      else
        let updatedInfo := with_refCount info newRefCount in
        writeGatewayInfo fs updatedInfo
  end.

Definition releaseSharedGateway (fs : FsOracle) (w : World) : World :=
  if negb (isCoordinatorInitialized w) then w
  else fst (try_catch (releaseBody fs) (fun _ => tt) w).

Definition getSharedGatewayUrl (w : World) : option string :=
  localGatewayUrl w.

Definition isSharedGatewayActive (w : World) : bool :=
  bool_decide (localGatewayProcess w ≠ None)
  && bool_decide (localGatewayUrl w ≠ None).

Definition shutdownSharedGateway (fs : FsOracle) (w : World) : World :=
  let w := cancelIdleShutdown w in
  let w := match readGatewayInfo w with
           | Some _ => clearGatewayInfo fs w
           | None => w
           end in
  let w := shutdownLocalGateway w in
  set_initialized false w.

(** ** Vocabulary of the properties *)

(** [Date.now() - startTime] at the head of the turn reached after [n]
    more turns of the startup loop went round, from turn [k] with
    [elapsed] on the clock. *)
Fixpoint advance (obs : nat -> PollObs) (k : nat) (elapsed : N) (n : nat) : N :=
  match n with
  | O => elapsed
  | S n' =>
      advance obs (S k) (elapsed + POLL_INTERVAL_MS + obs_extra (obs k))%N n'
  end.

Definition elapsedAt (obs : nat -> PollObs) (n : nat) : N := advance obs 0 0%N n.

(** Turn [k] is entered in time and sees neither an exit nor health. *)
Definition goes_round (obs : nat -> PollObs) (elapsed : N) (k : nat) : Prop :=
  (elapsed < GATEWAY_STARTUP_TIMEOUT_MS)%N
  /\ obs_exited (obs k) = false
  /\ isGatewayHealthy (obs_fetch (obs k)) = false.

(** What turn [k] sees when the loop ends there with [out]. *)
Definition ends_with (out : StartupOutcome) (obs : nat -> PollObs)
    (elapsed : N) (k : nat) : Prop :=
  match out with
  | StartupTimedOut => (GATEWAY_STARTUP_TIMEOUT_MS <= elapsed)%N
  | ExitedDuringStartup =>
      (elapsed < GATEWAY_STARTUP_TIMEOUT_MS)%N /\ obs_exited (obs k) = true
  | BecameHealthy =>
      (elapsed < GATEWAY_STARTUP_TIMEOUT_MS)%N /\ obs_exited (obs k) = false
      /\ isGatewayHealthy (obs_fetch (obs k)) = true
  end.

(** An event the backend environment of which holds none of the denied
    variables. *)
Definition spawn_env_clean (ev : Event) : Prop :=
  match ev with
  | EvSpawn _ _ _ env => forall key, key ∈ DEFAULT_ENV_DENYLIST -> env !! key = None
  | EvKill _ => True
  end.

(** The launch path of [acquireSharedGateway] inside its [try]:
    [launchFresh], a failure caught and turned into [null]. *)
Definition tryLaunchFresh (dir : string) (o : AcquireOracle)
    : World -> World * option AcquireResult :=
  try_catch (r <~ launchFresh dir o ;; ret (Some r)) (fun _ => None).

(** The store operations an operation needs do not fail. *)
Definition dir_ready (fs : FsOracle) : Prop :=
  dir_exists fs = true \/ mkdir_ok fs = true.

(** The stored count, if a record is stored, is not negative. *)
Definition stored_nonneg (w : World) : Prop :=
  match store w with
  | Stored info => 0 <= refCount info
  | NoFile | Unreadable => True
  end.

(** [release()] called once per element of [fss], in order. *)
Definition release_all (fss : list FsOracle) (w : World) : World :=
  foldl (fun w fs => releaseSharedGateway fs w) w fss.

(** What can happen to the module during one invocation: its exported
    operations are called, an armed timer comes due, and another
    invocation rewrites or removes [gateway.json]. *)
Inductive Op :=
| OpAcquire (dir : string) (o : AcquireOracle)
| OpRelease (fs : FsOracle)
| OpShutdown (fs : FsOracle)
| OpFire (t : nat) (fs : FsOracle)
| OpOutside (f : StoreFile).

Definition step (w : World) (op : Op) : World :=
  match op with
  | OpAcquire dir o => fst (acquireSharedGateway dir o w)
  | OpRelease fs => releaseSharedGateway fs w
  | OpShutdown fs => shutdownSharedGateway fs w
  | OpFire t fs => fireTimer t fs w
  | OpOutside f => set_store f w
  end.

Definition run_ops (ops : list Op) (w : World) : World := foldl step w ops.

(** At most one idle-shutdown callback is armed, the one the module
    holds the handle of, and handles are not reused. *)
Definition timer_inv (w : World) : Prop :=
  pendingTimers w = (match idleShutdownTimer w with Some t => [t] | None => [] end)
  /\ (forall t, idleShutdownTimer w = Some t -> (t < nextTimer w)%nat).

(** The module holds a process and a url together, and only ones it
    spawned itself. *)
Definition local_inv (w : World) : Prop :=
  match localGatewayProcess w, localGatewayUrl w with
  | Some p, Some u => exists argv dir env, EvSpawn p argv dir env ∈ trace w
  | None, None => True
  | _, _ => False
  end.

Definition is_acquire_or_release (op : Op) : bool :=
  match op with
  | OpAcquire _ _ | OpRelease _ => true
  | OpShutdown _ | OpFire _ _ | OpOutside _ => false
  end.


(** The runtime found on the search path, [python] before [python3]. *)
Definition spec_search_path (which_ : string -> option string)
    (env : Env) : Result (string * Env) :=
  match which_ "python" with
  | Some p => if truthy (Some p) then Ok (p, env) else Throw PythonNotFound
  | None =>
      match which_ "python3" with
      | Some p => if truthy (Some p) then Ok (p, env) else Throw PythonNotFound
      | None => Throw PythonNotFound
      end
  end.

Definition venv_bin (plat : Platform) (venv : string) : string :=
  join plat venv (if win32 plat then "Scripts" else "bin").

Definition venv_python (plat : Platform) (venv : string) : string :=
  join plat (venv_bin plat venv) (if win32 plat then "python.exe" else "python").

(** [binDir] put in front of the search path of [env]. *)
Definition prepend_path (plat : Platform) (binDir : string) (env : Env) : Env :=
  <["PATH" := Some (if truthy (env_get env "PATH")
                    then binDir ++ delimiter plat ++ default "" (env_get env "PATH")
                    else binDir)]> env.



(** ** Sample inputs *)

Definition posix : Platform :=
  {| win32 := false; join := fun a b => a ++ "/" ++ b |}.

Definition fs_ok : FsOracle :=
  {| dir_exists := true; mkdir_ok := true; write_ok := true; unlink_ok := true |}.

Definition probe_alive : ProbeOracle :=
  {| signal0_ok := fun _ => true; fetch := fun _ => Some true |}.

Definition probe_dead : ProbeOracle :=
  {| signal0_ok := fun _ => false; fetch := fun _ => None |}.

Definition shell_env : Env :=
  <["ANTHROPIC_API_KEY" := Some "sk-ant"]>
    (<["PATH" := Some "/usr/bin"]> (<["HOME" := Some "/home/u"]> ∅)).

Definition which_python (name : string) : option string :=
  if String.eqb name "python" then Some "/usr/bin/python" else None.

(** The third probe succeeds. *)
Definition polls_third (k : nat) : PollObs :=
  if (k <? 2)%nat then mkPoll false None 0 else mkPoll false (Some true) 0.

(** A POSIX machine without a virtual environment. *)
Definition launch_sample (cfg : option (string * Env))
    (wh : string -> option string) (l : ListenOutcome) (sp : option Z)
    (obs : nat -> PollObs) : LaunchOracle :=
  {| platform := posix; shell_config := cfg; file_exists := fun _ => false;
     which := wh; snapshot := None; net_listen := l; spawn_pid := sp;
     polls := obs; date_now := 1700000000000 |}.

(** [python] is on the search path and the backend comes up. *)
Definition launch_ok : LaunchOracle :=
  launch_sample (Some ("/bin/sh", shell_env)) which_python
    (Listening 4242 true) (Some 77) polls_third.

Definition fs_readonly : FsOracle :=
  {| dir_exists := true; mkdir_ok := false; write_ok := false; unlink_ok := false |}.

Definition sample_record : GatewayInfo :=
  {| url := "http://127.0.0.1:4100"; pid := 4100; startedAt := 1699999990000;
     refCount := 2; cwd := "/proj" |}.

(** A record that counts [2^53] holders. *)
Definition saturated_record : GatewayInfo :=
  with_refCount sample_record (2 ^ 53).

(** The invocation that launched the backend has released it: the
    record counts 0 and the idle-shutdown callback is armed. *)
Definition idle_world : World :=
  releaseSharedGateway fs_ok
    (fst (acquireSharedGateway "/proj" (mkAcquire fs_ok probe_alive launch_ok)
            (freshWorld NoFile ∅))).

(** An invocation that found the backend running, reused it and has
    released it as its last holder. *)
Definition last_holder_world : World :=
  releaseSharedGateway fs_ok
    (fst (acquireSharedGateway "/proj" (mkAcquire fs_ok probe_alive launch_ok)
            (freshWorld (Stored (with_refCount sample_record 0)) ∅))).

(** An invocation under [NODE_ENV=test] that finds a record stored. *)
Definition test_world : World :=
  freshWorld (Stored sample_record) {["NODE_ENV" := "test"]}.

(** A project with a virtual environment in [.venv]: the interpreter
    is a file, the directories above it are not. *)
Definition project_venv_files (path : string) : bool :=
  bool_decide (path = "/proj/.venv/bin/python").

(** [VIRTUAL_ENV=/v] is set, but there is no [/v/bin/python]. *)
Definition venv_env : Env :=
  <["VIRTUAL_ENV" := Some "/v"]> (<["PATH" := Some "/usr/bin"]> ∅).

(** ** Vocabulary of the further properties *)

(** The tests of the [filterEnv] loop on a key: not denied, and allowed
    by name or by prefix. *)
Definition kept_by_filter (denylist allowlist : gset string)
    (prefixes : list string) (key : string) : bool :=
  negb (bool_decide (key ∈ denylist))
  && (bool_decide (key ∈ allowlist)
      || existsb (fun p => String.prefix p key) prefixes).

(** What becomes of an entry of the input: kept when it is defined and
    [kept] holds. *)
Definition kept_value (kept : bool) (entry : option (option string))
    : option (option string) :=
  match entry with
  | Some (Some v) => if kept then Some (Some v) else None
  | Some None | None => None
  end.

(** The variables the launcher sets itself on top of the sanitized
    environment. *)
Definition injected_keys : list string :=
  [ "VIRTUAL_ENV"; "PATH"; "PYTHONUNBUFFERED"; "OMP_SHELL_SNAPSHOT";
    "PYTHONPATH" ].

(** Every process killed in [tr] was spawned in [tr]. *)
Definition kills_spawned (tr : list Event) : Prop :=
  forall p, EvKill p ∈ tr -> exists argv dir env, EvSpawn p argv dir env ∈ tr.

(** The events one launch can add: none, the spawn, or the spawn and the
    kill of the same process. *)
Definition launch_events (ev : Event) (p : Z) (new : list Event) : Prop :=
  new = [ev] \/ new = [ev; EvKill p].

(** An outside on which an acquire that finds [info] stored reuses it:
    the directory is there, the backend is alive, the write goes
    through. *)
Definition reuses (info : GatewayInfo) (o : AcquireOracle) : Prop :=
  dir_ready (acq_fs o)
  /\ write_ok (acq_fs o) = true
  /\ isGatewayAlive (acq_probe o) info = true.

(** [acquire(dir)] called once per element of [os], in order. *)
Definition acquire_all (dir : string) (os : list AcquireOracle) (w : World)
    : World :=
  foldl (fun w o => fst (acquireSharedGateway dir o w)) w os.

(** How many processes were spawned in [tr]. *)
Definition spawn_count (tr : list Event) : nat :=
  length (List.filter is_spawn tr).

Definition is_acquire (op : Op) : bool :=
  match op with
  | OpAcquire _ _ => true
  | OpRelease _ | OpShutdown _ | OpFire _ _ | OpOutside _ => false
  end.

(** [Bun.which] found nothing usable under [name]. *)
Definition not_on_path (which_ : string -> option string) (name : string) : Prop :=
  which_ name = None \/ which_ name = Some "".

(** * Properties *)

(** ** Numbers *)

Lemma to_double_exact n : Z.abs n <= 2 ^ 53 -> to_double n = n.
Proof. intros H. unfold to_double. by rewrite (proj2 (Z.leb_le _ _) H). Qed.

Lemma to_double_sign n :
  exists m, to_double n = Z.sgn n * m /\ (n <> 0 -> 1 <= m).
Proof.
  unfold to_double. destruct (Z.abs n <=? 2 ^ 53) eqn:Hsmall.
  - exists (Z.abs n). split; [by destruct n|lia].
  - apply Z.leb_gt in Hsmall. cbv zeta.
    set (a := Z.abs n) in *. set (e := Z.log2 a - 52).
    assert (Ha : 0 < a) by (assert (0 < 2 ^ 53) by (by apply Z.pow_pos_nonneg); lia).
    assert (Hlog : 53 <= Z.log2 a).
    { change 53 with (Z.log2 (2 ^ 53)). apply Z.log2_le_mono. lia. }
    assert (He : 0 < 2 ^ e) by (apply Z.pow_pos_nonneg; unfold e; lia).
    assert (Hq : 1 <= a / 2 ^ e).
    { assert (0 < a / 2 ^ e); [|lia]. apply Z.div_str_pos. split; [done|].
      transitivity (2 ^ Z.log2 a); [|by apply Z.log2_spec].
      apply Z.pow_le_mono_r; unfold e; lia. }
    eexists. split; [reflexivity|]. intros _.
    repeat case_match; nia.
Qed.

Lemma to_double_eqb_0 n : (to_double n =? 0) = (n =? 0).
Proof.
  destruct (to_double_sign n) as (m & -> & Hm).
  destruct (Z.eqb_spec n 0) as [->|Hn]; [done|].
  apply Z.eqb_neq. specialize (Hm Hn). destruct n; cbn; lia.
Qed.

Lemma to_double_le_1 n : 1 <= n -> 1 <= to_double n.
Proof.
  intros Hn. destruct (to_double_sign n) as (m & -> & Hm).
  rewrite Z.sgn_pos by lia. specialize (Hm ltac:(lia)). lia.
Qed.

Lemma to_double_nonneg n : 0 <= n -> 0 <= to_double n.
Proof.
  intros Hn. destruct (Z.eq_dec n 0) as [->|Hne]; [done|].
  pose proof (to_double_le_1 n). lia.
Qed.

Lemma readGatewayInfo_some w info :
  readGatewayInfo w = Some info ->
  exists raw, store w = Stored raw /\ info = parseGatewayInfo raw.
Proof.
  unfold readGatewayInfo. destruct (store w) as [| |raw]; try discriminate.
  intros [= <-]. by exists raw.
Qed.

Lemma to_double_neg n : n < 0 -> to_double n < 0.
Proof.
  intros Hn. destruct (to_double_sign n) as (m & -> & Hm).
  rewrite Z.sgn_neg by lia. specialize (Hm ltac:(lia)). lia.
Qed.

(** Up to [2^53] the count a release computes is exact. *)
Lemma release_count_exact n :
  n <= 2 ^ 53 -> Z.max 0 (js_sub (to_double n) 1) = Z.max 0 (n - 1).
Proof.
  intros Hn. unfold js_sub. destruct (Z_le_gt_dec n 0) as [Hle|Hgt].
  - assert (to_double n <= 0).
    { destruct (Z.eq_dec n 0) as [->|Hne]; [done|].
      pose proof (to_double_neg n). lia. }
    pose proof (to_double_neg (to_double n - 1)). lia.
  - rewrite (to_double_exact n) by lia. by rewrite to_double_exact by lia.
Qed.

(** As long as [n + 1] is at most [2^53] the count an acquire computes
    is exact. *)
Lemma acquire_count_exact n :
  - 2 ^ 53 <= n < 2 ^ 53 -> js_add (to_double n) 1 = n + 1.
Proof.
  intros Hn. unfold js_add. rewrite (to_double_exact n) by lia.
  by rewrite to_double_exact by lia.
Qed.

Lemma readGatewayInfo_stored w info :
  store w = Stored info -> readGatewayInfo w = Some (parseGatewayInfo info).
Proof. unfold readGatewayInfo. by intros ->. Qed.

(** ** EnvSanitizer *)

Section FilterEnvFacts.
Variables (denylist allowlist : gset string) (prefixes : list string).

Lemma filterEnvStep_absent (key : string) (filtered : Env) entry :
  key ∈ denylist ->
  filtered !! key = None ->
  filterEnvStep denylist allowlist prefixes filtered entry !! key = None.
Proof.
  intros Hdeny Hnone. destruct entry as [k [v|]]; simpl; [|assumption].
  case_bool_decide as Hk; [assumption|].
  assert (k <> key) by (intros ->; contradiction).
  case_bool_decide; [by rewrite lookup_insert_ne|].
  destruct (existsb _ prefixes); [by rewrite lookup_insert_ne|assumption].
Qed.

Lemma foldl_filterEnvStep_absent (key : string) entries :
  key ∈ denylist ->
  forall filtered : Env,
    filtered !! key = None ->
    foldl (filterEnvStep denylist allowlist prefixes) filtered entries !! key = None.
Proof.
  intros Hdeny. induction entries as [|e entries IH]; intros filtered Hnone.
  - exact Hnone.
  - simpl. apply IH. by apply filterEnvStep_absent.
Qed.

Lemma filterEnvWith_absent (key : string) (env : Env) :
  key ∈ denylist ->
  filterEnvWith denylist allowlist prefixes env !! key = None.
Proof.
  intros Hdeny. unfold filterEnvWith.
  apply foldl_filterEnvStep_absent; [assumption|apply lookup_empty].
Qed.
End FilterEnvFacts.


Lemma denied_not_injected (key : string) :
  key ∈ DEFAULT_ENV_DENYLIST ->
  key <> "VIRTUAL_ENV" /\ key <> "PATH" /\ key <> "PYTHONUNBUFFERED"
  /\ key <> "OMP_SHELL_SNAPSHOT" /\ key <> "PYTHONPATH".
Proof.
  intros Hdeny. repeat split; intros ->;
    pose proof (bool_decide_pack _ Hdeny) as Hb; vm_compute in Hb;
    discriminate.
Qed.

(** The variables [resolvePythonRuntime] sets are [VIRTUAL_ENV] and
    [PATH]; every other key of the result is as in its input. *)
Lemma resolvePythonRuntime_lookup plat ex wh penv dir baseEnv pythonPath env key :
  resolvePythonRuntime plat ex wh penv dir baseEnv = Ok (pythonPath, env) ->
  key <> "VIRTUAL_ENV" -> key <> "PATH" ->
  env !! key = baseEnv !! key.
Proof.
  unfold resolvePythonRuntime, nullish_or. intros Hres Hv Hp.
  repeat case_match; try discriminate; injection Hres as <- <-;
    by rewrite ?lookup_insert_ne.
Qed.

Lemma kernelEnvOf_lookup plat dir runtimeEnv snap key :
  key <> "OMP_SHELL_SNAPSHOT" -> key <> "PYTHONUNBUFFERED" -> key <> "PYTHONPATH" ->
  kernelEnvOf plat dir runtimeEnv snap !! key = runtimeEnv !! key.
Proof.
  intros H1 H2 H3. unfold kernelEnvOf.
  case_match; by rewrite ?lookup_insert_ne.
Qed.

(** ** Running the monad *)

(** How [awaitStartup] ends, outcome by outcome. *)
Lemma awaitStartup_run gatewayUrl p obs w :
  awaitStartup gatewayUrl p obs w =
  match fst (startupLoop obs 0 0%N) with
  | BecameHealthy => (set_local (Some p) (Some gatewayUrl) w, Ok (gatewayUrl, p))
  | ExitedDuringStartup => (w, Throw GatewayExited)
  | StartupTimedOut => (emit (EvKill p) w, Throw GatewayStartupTimeout)
  end.
Proof. unfold awaitStartup. by destruct (fst _). Qed.

(** [startGatewayProcess] step by step: each external call either
    throws, leaving the world as it is, or hands on to the next. *)
Lemma startGatewayProcess_run dir o w :
  startGatewayProcess dir o w =
  match shell_config o with
  | None => (w, Throw ShellConfigFailed)
  | Some cfg =>
    match resolvePythonRuntime (platform o) (file_exists o) (which o)
            (processEnv w) dir (filterEnv (snd cfg)) with
    | Throw e => (w, Throw e)
    | Ok runtime =>
      match allocatePort (net_listen o) with
      | Throw e => (w, Throw e)
      | Ok port =>
        match spawn_pid o with
        | None => (w, Throw SpawnFailed)
        | Some p =>
            awaitStartup ("http://127.0.0.1:" ++ show_port port) p (polls o)
              (emit (EvSpawn p (gateway_argv (fst runtime) port) dir
                       (kernelEnvOf (platform o) dir (snd runtime) (snapshot o))) w)
        end
      end
    end
  end.
Proof.
  unfold startGatewayProcess. run.
  destruct (shell_config o) as [cfg|]; cbn; [|done].
  destruct (resolvePythonRuntime _ _ _ _ _ _) as [runtime|e]; cbn; [|done].
  destruct (allocatePort _) as [port|e]; cbn; [|done].
  destruct (spawn_pid o) as [p|]; cbn; done.
Qed.

Lemma kernelEnv_clean plat ex wh penv dir env pythonPath runtimeEnv snap key :
  resolvePythonRuntime plat ex wh penv dir (filterEnv env) = Ok (pythonPath, runtimeEnv) ->
  key ∈ DEFAULT_ENV_DENYLIST ->
  kernelEnvOf plat dir runtimeEnv snap !! key = None.
Proof.
  intros Hres Hdeny.
  destruct (denied_not_injected key Hdeny) as (Hv & Hp & Hu & Hs & Hpp).
  rewrite kernelEnvOf_lookup by assumption.
  rewrite (resolvePythonRuntime_lookup _ _ _ _ _ _ _ _ _ Hres Hv Hp).
  by apply filterEnvWith_absent.
Qed.

Lemma startGatewayProcess_trace dir o w :
  exists new, trace (fst (startGatewayProcess dir o w)) = (trace w ++ new)%list
              /\ Forall spawn_env_clean new.
Proof.
  rewrite startGatewayProcess_run.
  destruct (shell_config o) as [cfg|]; [|exists []; by rewrite app_nil_r].
  destruct (resolvePythonRuntime _ _ _ _ _ _) as [[pythonPath runtimeEnv]|e] eqn:Hres;
    [|exists []; by rewrite app_nil_r].
  destruct (allocatePort _) as [port|e]; [|exists []; by rewrite app_nil_r].
  destruct (spawn_pid o) as [p|]; [|exists []; by rewrite app_nil_r].
  rewrite awaitStartup_run.
  assert (Hclean : spawn_env_clean
            (EvSpawn p (gateway_argv pythonPath port) dir
               (kernelEnvOf (platform o) dir runtimeEnv (snapshot o)))).
  { intros key Hdeny. by eapply kernelEnv_clean. }
  destruct (fst (startupLoop (polls o) 0 0%N)); cbn.
  - eexists [_]. split; [reflexivity|]. by repeat constructor.
  - eexists [_]. split; [reflexivity|]. by repeat constructor.
  - eexists [_; _]. split; [by rewrite <- app_assoc|]. by repeat constructor.
Qed.

(** C4. Whatever the input environment, a variable named in the
    deny-list is absent from what [filterEnv] returns: the deny-list is
    tested before the allow-list and the prefixes, so it wins even for
    an allow-list or prefixes that would let the name through.  The
    variable is absent as well from the environment of every backend
    [startGatewayProcess] spawns. *)
Theorem filterEnv_deny_precedence
    (allowlist : gset string) (prefixes : list string) (env : Env) (key : string) :
  key ∈ DEFAULT_ENV_DENYLIST ->
  filterEnvWith DEFAULT_ENV_DENYLIST allowlist prefixes env !! key = None
  /\ filterEnv env !! key = None
  /\ forall dir o w p argv d e,
       EvSpawn p argv d e ∈ trace (fst (startGatewayProcess dir o w)) ->
       EvSpawn p argv d e ∈ trace w \/ e !! key = None.
Proof.
  intros Hdeny. split; [|split].
  - by apply filterEnvWith_absent.
  - by apply filterEnvWith_absent.
  - intros dir o w p argv d e Hin.
    destruct (startGatewayProcess_trace dir o w) as (new & Htr & Hclean).
    rewrite Htr in Hin. apply elem_of_app in Hin as [Hold|Hnew]; [by left|right].
    rewrite Forall_forall in Hclean. by apply (Hclean _ Hnew).
Qed.

(** The deny-list wins over an allow-list and a prefix that both let the
    name through; its neighbour under the same prefix is kept. *)
Example filterEnv_denied_despite_allowed :
  filterEnvWith DEFAULT_ENV_DENYLIST {["OPENAI_API_KEY"]} ["OPENAI_"]
    (<["OPENAI_API_KEY" := Some "sk-live"]> {["OPENAI_ORG" := Some "acme"]})
  = {["OPENAI_ORG" := Some "acme"]}.
Proof. vm_compute. reflexivity. Qed.

(** Of the shell's variables the backend gets [PATH] and [HOME], not
    the key. *)
Example filterEnv_shell_env :
  filterEnv shell_env
  = <["PATH" := Some "/usr/bin"]> {["HOME" := Some "/home/u"]}.
Proof. vm_compute. reflexivity. Qed.

Lemma filterEnv_deny_precedence_witness :
  "OPENAI_API_KEY" ∈ DEFAULT_ENV_DENYLIST
  /\ filterEnvWith DEFAULT_ENV_DENYLIST {["OPENAI_API_KEY"]} ["OPENAI_"]
       {["OPENAI_API_KEY" := Some "sk-live"]} !! "OPENAI_API_KEY" = None.
Proof.
  assert (Hin : "OPENAI_API_KEY" ∈ DEFAULT_ENV_DENYLIST)
    by (refine (bool_decide_unpack _ _); vm_compute; exact I).
  split; [exact Hin|].
  exact (proj1 (filterEnv_deny_precedence {["OPENAI_API_KEY"]} ["OPENAI_"]
                  {["OPENAI_API_KEY" := Some "sk-live"]} "OPENAI_API_KEY" Hin)).
Defined.

(** ** ProcessLauncher *)

Lemma startupLoop_spec (obs : nat -> PollObs) (k : nat) (e : N) :
  exists d : nat,
    snd (startupLoop obs k e) = (k + d)%nat
    /\ (forall i, (i < d)%nat -> goes_round obs (advance obs k e i) (k + i))
    /\ ends_with (fst (startupLoop obs k e)) obs (advance obs k e d) (k + d).
Proof.
  funelim (startupLoop obs k e).
  - exists 0%nat. rewrite Nat.add_0_r. cbn.
    split; [done|]. split; [lia|]. by apply N.ltb_ge.
  - exists 0%nat. rewrite Nat.add_0_r. cbn.
    split; [done|]. split; [lia|]. split; [by apply N.ltb_lt|done].
  - exists 0%nat. rewrite Nat.add_0_r. cbn.
    split; [done|]. split; [lia|]. split; [by apply N.ltb_lt|done].
  - match goal with IH : exists d, _ |- _ => destruct IH as (d & Hn & Hround & Hend) end.
    exists (S d). rewrite Hn. split; [lia|]. split.
    + intros [|i] Hi; cbn.
      * rewrite Nat.add_0_r. split; [by apply N.ltb_lt|done].
      * replace (k + S i)%nat with (S k + i)%nat by lia. apply Hround. lia.
    + replace (k + S d)%nat with (S k + d)%nat by lia. exact Hend.
Qed.

(** Every turn that goes round costs at least the 100 ms sleep. *)
Lemma advance_lower (obs : nat -> PollObs) (n k : nat) (e : N) :
  (e + POLL_INTERVAL_MS * N.of_nat n <= advance obs k e n)%N.
Proof.
  revert k e. induction n as [|n IH]; intros k e; cbn [advance].
  - lia.
  - specialize (IH (S k) (e + POLL_INTERVAL_MS + obs_extra (obs k))%N).
    unfold POLL_INTERVAL_MS in *. lia.
Qed.

(** The loop is over within 300 turns. *)
Lemma goes_round_bound (obs : nat -> PollObs) (d : nat) :
  (forall i, (i < d)%nat -> goes_round obs (elapsedAt obs i) i) ->
  (d <= 300)%nat.
Proof.
  intros Hround. destruct d as [|d]; [lia|].
  destruct (Hround d) as [Hlt _]; [lia|].
  pose proof (advance_lower obs d 0 0%N) as Hlow. unfold elapsedAt in Hlt.
  unfold GATEWAY_STARTUP_TIMEOUT_MS, POLL_INTERVAL_MS in *. lia.
Qed.

(** C9. Once the runtime, the port and the process are there,
    [startGatewayProcess] is the wait for the spawned process, and that
    wait ends in exactly one of three ways, in a turn [n] of the polling
    loop before which every turn was entered in time and saw neither an
    exit nor health, [n] being at most 300: the probe of turn [n]
    succeeds and the url and pid are returned (and kept as the local
    gateway); or turn [n], entered before the 30 s are over, finds the
    process exited and the launch fails with the exit error at once,
    nothing being killed; or turn [n] is reached with the 30 s elapsed,
    the process tree is killed and the launch fails with the timeout
    error. *)
Theorem awaitStartup_three_outcomes :
  (forall (gatewayUrl : string) (p : Z) (obs : nat -> PollObs) (w : World),
      exists n : nat,
        (n <= 300)%nat
        /\ (forall i, (i < n)%nat -> goes_round obs (elapsedAt obs i) i)
        /\ ( (ends_with BecameHealthy obs (elapsedAt obs n) n
              /\ awaitStartup gatewayUrl p obs w
                 = (set_local (Some p) (Some gatewayUrl) w, Ok (gatewayUrl, p)))
             \/ (ends_with ExitedDuringStartup obs (elapsedAt obs n) n
                 /\ awaitStartup gatewayUrl p obs w = (w, Throw GatewayExited))
             \/ (ends_with StartupTimedOut obs (elapsedAt obs n) n
                 /\ awaitStartup gatewayUrl p obs w
                    = (emit (EvKill p) w, Throw GatewayStartupTimeout)) ))
  /\ (forall dir o w cfg pythonPath runtimeEnv port p,
        shell_config o = Some cfg ->
        resolvePythonRuntime (platform o) (file_exists o) (which o)
          (processEnv w) dir (filterEnv (snd cfg)) = Ok (pythonPath, runtimeEnv) ->
        allocatePort (net_listen o) = Ok port ->
        spawn_pid o = Some p ->
        startGatewayProcess dir o w
        = awaitStartup ("http://127.0.0.1:" ++ show_port port) p (polls o)
            (emit (EvSpawn p (gateway_argv pythonPath port) dir
                     (kernelEnvOf (platform o) dir runtimeEnv (snapshot o))) w)).
Proof.
  split.
  - intros gatewayUrl p obs w.
    destruct (startupLoop_spec obs 0 0%N) as (n & _ & Hround & Hend).
    exists n. cbn in Hround, Hend. fold (elapsedAt obs n) in Hend.
    split; [by apply (goes_round_bound obs)|]. split; [exact Hround|].
    rewrite awaitStartup_run.
    destruct (fst (startupLoop obs 0 0%N)); auto.
  - intros dir o w cfg pythonPath runtimeEnv port p Hcfg Hres Hport Hspawn.
    by rewrite startGatewayProcess_run, Hcfg, Hres, Hport, Hspawn.
Qed.

Lemma awaitStartup_three_outcomes_witness :
  exists kernelEnv,
    startGatewayProcess "/proj" launch_ok (freshWorld NoFile ∅)
    = awaitStartup "http://127.0.0.1:4242" 77 polls_third
        (emit (EvSpawn 77 (gateway_argv "/usr/bin/python" 4242) "/proj" kernelEnv)
           (freshWorld NoFile ∅)).
Proof.
  eexists.
  refine (proj2 awaitStartup_three_outcomes "/proj" launch_ok (freshWorld NoFile ∅)
            ("/bin/sh", shell_env) "/usr/bin/python" _ 4242%N 77 _ _ _ _);
    reflexivity.
Defined.

(** The three ways, each on observations that lead to it. *)
Example awaitStartup_healthy_at_third_turn :
  awaitStartup "http://127.0.0.1:4242" 77
    (fun k => if (k <? 2)%nat then mkPoll false None 0 else mkPoll false (Some true) 0)
    (freshWorld NoFile ∅)
  = (set_local (Some 77) (Some "http://127.0.0.1:4242") (freshWorld NoFile ∅),
     Ok ("http://127.0.0.1:4242", 77)).
Proof. reflexivity. Qed.

Example awaitStartup_exit_at_second_turn :
  awaitStartup "http://127.0.0.1:4242" 77
    (fun k => mkPoll (1 <=? k)%nat None 0) (freshWorld NoFile ∅)
  = (freshWorld NoFile ∅, Throw GatewayExited).
Proof. reflexivity. Qed.

Example awaitStartup_never_healthy :
  awaitStartup "http://127.0.0.1:4242" 77
    (fun k => mkPoll false (Some false) 0) (freshWorld NoFile ∅)
  = (emit (EvKill 77) (freshWorld NoFile ∅), Throw GatewayStartupTimeout).
Proof. vm_compute. reflexivity. Qed.

(** ** Coordinator: how [acquireSharedGateway] runs *)

#[local] Arguments startGatewayProcess : simpl never.
#[local] Arguments awaitStartup : simpl never.
#[local] Arguments to_double : simpl never.

Lemma tryLaunchFresh_run dir o w0 :
  tryLaunchFresh dir o w0 =
  match startGatewayProcess dir (acq_launch o) w0 with
  | (w1, Ok started) =>
      if write_ok (acq_fs o) then
        (set_initialized true
           (set_store
              (Stored {| url := fst started; pid := snd started;
                         startedAt := date_now (acq_launch o);
                         refCount := 1; cwd := dir |}) w1),
         Some {| res_url := fst started; isShared := true |})
      else (w1, None)
  | (w1, Throw e) => (w1, None)
  end.
Proof.
  unfold tryLaunchFresh, launchFresh, writeGatewayInfo. run.
  destruct (startGatewayProcess dir (acq_launch o) w0) as [w1 [started|e]];
    cbn; [|done].
  destruct (write_ok (acq_fs o)); done.
Qed.

Lemma acquireSharedGatewayDuring_run during dir o w :
  acquireSharedGatewayDuring during dir o w =
  if isTestMode w then (w, None)
  else if negb (dir_exists (acq_fs o) || mkdir_ok (acq_fs o)) then (w, None)
  else
    match readGatewayInfo w with
    | Some info =>
        if isGatewayAlive (acq_probe o) info then
          if write_ok (acq_fs o) then
            (set_initialized true
               (cancelIdleShutdown
                  (set_store
                     (Stored (with_refCount info (js_add (refCount info) 1)))
                     (during w))),
             Some {| res_url := url info; isShared := true |})
          else (during w, None)
        else tryLaunchFresh dir o (clearGatewayInfo (acq_fs o) (during w))
    | None => tryLaunchFresh dir o w
    end.
Proof.
  unfold acquireSharedGatewayDuring. destruct (isTestMode w); [done|].
  unfold acquireBodyDuring, ensureGatewayDir, writeGatewayInfo, tryLaunchFresh. run.
  destruct (dir_exists (acq_fs o)), (mkdir_ok (acq_fs o)); cbn; try done.
  all: destruct (readGatewayInfo w) as [info|]; cbn; try done.
  all: destruct (isGatewayAlive (acq_probe o) info); cbn; try done.
  all: destruct (write_ok (acq_fs o)); done.
Qed.

Lemma acquireSharedGateway_run dir o w :
  acquireSharedGateway dir o w =
  if isTestMode w then (w, None)
  else if negb (dir_exists (acq_fs o) || mkdir_ok (acq_fs o)) then (w, None)
  else
    match readGatewayInfo w with
    | Some info =>
        if isGatewayAlive (acq_probe o) info then
          if write_ok (acq_fs o) then
            (set_initialized true
               (cancelIdleShutdown
                  (set_store
                     (Stored (with_refCount info (js_add (refCount info) 1))) w)),
             Some {| res_url := url info; isShared := true |})
          else (w, None)
        else tryLaunchFresh dir o (clearGatewayInfo (acq_fs o) w)
    | None => tryLaunchFresh dir o w
    end.
Proof. apply (acquireSharedGatewayDuring_run (fun w => w)). Qed.

(** What launching leaves alone: the record, the environment, the
    timers and the initialised flag. *)
Lemma startGatewayProcess_frame dir o w :
  let w' := fst (startGatewayProcess dir o w) in
  store w' = store w /\ processEnv w' = processEnv w
  /\ idleShutdownTimer w' = idleShutdownTimer w
  /\ pendingTimers w' = pendingTimers w /\ nextTimer w' = nextTimer w
  /\ isCoordinatorInitialized w' = isCoordinatorInitialized w.
Proof.
  rewrite startGatewayProcess_run.
  destruct (shell_config o) as [cfg|]; [|done].
  destruct (resolvePythonRuntime _ _ _ _ _ _) as [runtime|e]; [|done].
  destruct (allocatePort _) as [port|e]; [|done].
  destruct (spawn_pid o) as [p|]; [|done].
  rewrite awaitStartup_run.
  by destruct (fst (startupLoop (polls o) 0 0%N)).
Qed.

Lemma dir_ready_orb fs :
  dir_ready fs -> dir_exists fs || mkdir_ok fs = true.
Proof. intros [-> | ->]; [done | apply orb_true_r]. Qed.

(** The reuse path, run. *)
Lemma acquire_reuse_run dir o w info :
  isTestMode w = false ->
  dir_ready (acq_fs o) ->
  write_ok (acq_fs o) = true ->
  store w = Stored info ->
  isGatewayAlive (acq_probe o) info = true ->
  acquireSharedGateway dir o w
  = (set_initialized true
       (cancelIdleShutdown
          (set_store
             (Stored (with_refCount info (js_add (to_double (refCount info)) 1)))
             w)),
     Some {| res_url := url info; isShared := true |}).
Proof.
  intros Htest Hdir Hwrite Hstore Halive.
  rewrite acquireSharedGateway_run, Htest, (dir_ready_orb _ Hdir).
  cbn [negb]. rewrite (readGatewayInfo_stored _ _ Hstore).
  change (isGatewayAlive (acq_probe o) (parseGatewayInfo info))
    with (isGatewayAlive (acq_probe o) info).
  by rewrite Halive, Hwrite.
Qed.

Lemma acquire_reuse_during_run during dir o w info :
  isTestMode w = false ->
  dir_ready (acq_fs o) ->
  write_ok (acq_fs o) = true ->
  store w = Stored info ->
  isGatewayAlive (acq_probe o) info = true ->
  acquireSharedGatewayDuring during dir o w
  = (set_initialized true
       (cancelIdleShutdown
          (set_store
             (Stored (with_refCount info (js_add (to_double (refCount info)) 1)))
             (during w))),
     Some {| res_url := url info; isShared := true |}).
Proof.
  intros Htest Hdir Hwrite Hstore Halive.
  rewrite acquireSharedGatewayDuring_run, Htest, (dir_ready_orb _ Hdir).
  cbn [negb]. rewrite (readGatewayInfo_stored _ _ Hstore).
  change (isGatewayAlive (acq_probe o) (parseGatewayInfo info))
    with (isGatewayAlive (acq_probe o) info).
  by rewrite Halive, Hwrite.
Qed.

(** A record that counts [2^53] holders is written back with the same
    count: adding one to [2^53] gives [2^53] in the arithmetic of the
    code. *)
Lemma acquire_at_2_53_keeps_count :
  let w := freshWorld (Stored saturated_record) ∅ in
  let r := acquireSharedGateway "/proj" (mkAcquire fs_ok probe_alive launch_ok) w in
  refCount saturated_record = 2 ^ 53
  /\ snd r = Some {| res_url := url saturated_record; isShared := true |}
  /\ store (fst r) = Stored saturated_record
  /\ store (fst r) <> Stored (with_refCount saturated_record (2 ^ 53 + 1)).
Proof. vm_compute. repeat split; try reflexivity. discriminate. Qed.

(** C1, amended. With a record stored whose pid is running and whose
    endpoint answers the probe, and whose count [n] is an integer with
    [-2^53 <= n < 2^53], [acquireSharedGateway] (outside test mode, the
    directory and the write not failing) writes the record back with
    [refCount] [n + 1], returns the stored url with [isShared] true,
    and neither spawns nor kills a process.  [during] is what else
    happens in the invocation while the probe is awaited. *)
Theorem acquire_reuses_live_gateway
    (during : World -> World)
    (dir : string) (o : AcquireOracle) (w : World) (info : GatewayInfo) :
  isTestMode w = false ->
  dir_ready (acq_fs o) ->
  write_ok (acq_fs o) = true ->
  store w = Stored info ->
  isPidRunning (acq_probe o) (pid info) = true ->
  isGatewayHealthy (fetch (acq_probe o) (url info ++ "/api/kernelspecs")) = true ->
  - 2 ^ 53 <= refCount info < 2 ^ 53 ->
  let w' := fst (acquireSharedGatewayDuring during dir o w) in
  store w' = Stored (with_refCount info (refCount info + 1))
  /\ snd (acquireSharedGatewayDuring during dir o w)
     = Some {| res_url := url info; isShared := true |}
  /\ trace w' = trace (during w).
Proof.
  intros Htest Hdir Hwrite Hstore Hpid Hhealth Hrange.
  assert (Halive : isGatewayAlive (acq_probe o) info = true)
    by (unfold isGatewayAlive; by rewrite Hpid, Hhealth).
  rewrite (acquire_reuse_during_run during dir o w info) by assumption.
  rewrite acquire_count_exact by done.
  cbn. unfold cancelIdleShutdown. cbn. by destruct (idleShutdownTimer (during w)).
Qed.

Lemma acquire_reuses_live_gateway_witness :
  let r := acquireSharedGateway "/proj" (mkAcquire fs_ok probe_alive launch_ok)
             (freshWorld (Stored sample_record) ∅) in
  store (fst r) = Stored (with_refCount sample_record 3)
  /\ snd r = Some {| res_url := "http://127.0.0.1:4100"; isShared := true |}
  /\ trace (fst r) = [].
Proof.
  apply (acquire_reuses_live_gateway (fun w => w) "/proj"
           (mkAcquire fs_ok probe_alive launch_ok)
           (freshWorld (Stored sample_record) ∅) sample_record);
    try reflexivity.
  - left. reflexivity.
  - cbn. lia.
Defined.

Lemma isGatewayAlive_both (o : ProbeOracle) (info : GatewayInfo) :
  isGatewayAlive o info
  = isPidRunning o (pid info)
    && isGatewayHealthy (fetch o (url info ++ "/api/kernelspecs")).
Proof. unfold isGatewayAlive. by destruct (isPidRunning o (pid info)). Qed.

(** A launch that succeeds spawned the process it returns, on the port
    its url names, and keeps it as the local gateway. *)
Lemma startGatewayProcess_ok dir o w w1 u p :
  startGatewayProcess dir o w = (w1, Ok (u, p)) ->
  exists port argv env,
    spawn_pid o = Some p
    /\ allocatePort (net_listen o) = Ok port
    /\ u = "http://127.0.0.1:" ++ show_port port
    /\ w1 = set_local (Some p) (Some u) (emit (EvSpawn p argv dir env) w).
Proof.
  rewrite startGatewayProcess_run.
  destruct (shell_config o) as [cfg|]; [|done].
  destruct (resolvePythonRuntime _ _ _ _ _ _) as [runtime|e]; [|done].
  destruct (allocatePort _) as [port|e]; [|done].
  destruct (spawn_pid o) as [p'|]; [|done].
  rewrite awaitStartup_run.
  destruct (fst (startupLoop (polls o) 0 0%N)); [|done|done].
  intros [= <- <- <-]. by eexists port, _, _.
Qed.

Lemma tryLaunchFresh_some dir o w0 w' r :
  tryLaunchFresh dir o w0 = (w', Some r) ->
  exists w1 p,
    startGatewayProcess dir (acq_launch o) w0 = (w1, Ok (res_url r, p))
    /\ write_ok (acq_fs o) = true
    /\ isShared r = true
    /\ w' = set_initialized true
              (set_store
                 (Stored {| url := res_url r; pid := p;
                            startedAt := date_now (acq_launch o);
                            refCount := 1; cwd := dir |}) w1).
Proof.
  rewrite tryLaunchFresh_run.
  destruct (startGatewayProcess dir (acq_launch o) w0) as [w1 [[u p]|e]]; [|done].
  destruct (write_ok (acq_fs o)); [|done].
  cbn. intros [= <- <-]. by exists w1, p.
Qed.

Lemma tryLaunchFresh_none_store dir o w0 w' :
  tryLaunchFresh dir o w0 = (w', None) -> store w' = store w0.
Proof.
  rewrite tryLaunchFresh_run.
  pose proof (startGatewayProcess_frame dir (acq_launch o) w0) as Hframe.
  destruct (startGatewayProcess dir (acq_launch o) w0) as [w1 [started|e]];
    cbn in Hframe; destruct Hframe as [Hst _].
  - destruct (write_ok (acq_fs o)); [done|]. by intros [= <-].
  - by intros [= <-].
Qed.

(** C3. A stored record counts as alive only when its pid is running
    and its endpoint answers.  When either fails, [acquireSharedGateway]
    (outside test mode, the directory being there) unlinks the record
    and launches: it runs [startGatewayProcess] from the world without
    the record and returns what that gives.  On an outside where the
    runtime resolves, a port is allocated, the process is spawned and
    becomes healthy and the write goes through, a process is spawned,
    the url of its port is returned, and the record is a fresh one with
    [refCount] 1 and its pid.  Whatever it returns is the url of a
    process it spawned; and when it returns [null] the stale record is
    gone all the same. *)
Theorem acquire_discards_stale_record
    (dir : string) (o : AcquireOracle) (w : World) (info : GatewayInfo) :
  isTestMode w = false ->
  dir_ready (acq_fs o) ->
  store w = Stored info ->
  (isPidRunning (acq_probe o) (pid info) = false
   \/ isGatewayHealthy (fetch (acq_probe o) (url info ++ "/api/kernelspecs")) = false) ->
  let cleared := clearGatewayInfo (acq_fs o) w in
  isGatewayAlive (acq_probe o) info = false
  /\ (unlink_ok (acq_fs o) = true -> store cleared = NoFile)
  /\ acquireSharedGateway dir o w
     = match startGatewayProcess dir (acq_launch o) cleared with
       | (w1, Ok started) =>
           if write_ok (acq_fs o) then
             (set_initialized true
                (set_store
                   (Stored {| url := fst started; pid := snd started;
                              startedAt := date_now (acq_launch o);
                              refCount := 1; cwd := dir |}) w1),
              Some {| res_url := fst started; isShared := true |})
           else (w1, None)
       | (w1, Throw e) => (w1, None)
       end
  /\ (forall cfg pythonPath runtimeEnv port p,
        shell_config (acq_launch o) = Some cfg ->
        resolvePythonRuntime (platform (acq_launch o)) (file_exists (acq_launch o))
          (which (acq_launch o)) (processEnv w) dir (filterEnv (snd cfg))
        = Ok (pythonPath, runtimeEnv) ->
        allocatePort (net_listen (acq_launch o)) = Ok port ->
        spawn_pid (acq_launch o) = Some p ->
        fst (startupLoop (polls (acq_launch o)) 0 0%N) = BecameHealthy ->
        write_ok (acq_fs o) = true ->
        let w' := fst (acquireSharedGateway dir o w) in
        let gatewayUrl := "http://127.0.0.1:" ++ show_port port in
        snd (acquireSharedGateway dir o w)
        = Some {| res_url := gatewayUrl; isShared := true |}
        /\ trace w'
           = (trace w ++ [EvSpawn p (gateway_argv pythonPath port) dir
                            (kernelEnvOf (platform (acq_launch o)) dir runtimeEnv
                               (snapshot (acq_launch o)))])%list
        /\ store w'
           = Stored {| url := gatewayUrl; pid := p;
                       startedAt := date_now (acq_launch o);
                       refCount := 1; cwd := dir |}
        /\ getSharedGatewayUrl w' = Some gatewayUrl)
  /\ (forall w' r,
        acquireSharedGateway dir o w = (w', Some r) ->
        exists w1 p argv env,
          startGatewayProcess dir (acq_launch o) cleared = (w1, Ok (res_url r, p))
          /\ EvSpawn p argv dir env ∈ trace w'
          /\ store w' = Stored {| url := res_url r; pid := p;
                                  startedAt := date_now (acq_launch o);
                                  refCount := 1; cwd := dir |})
  /\ (forall w',
        acquireSharedGateway dir o w = (w', None) ->
        unlink_ok (acq_fs o) = true -> store w' = NoFile).
Proof.
  intros Htest Hdir Hstore Hstale cleared.
  assert (Halive : isGatewayAlive (acq_probe o) info = false).
  { rewrite isGatewayAlive_both.
    destruct Hstale as [-> | ->]; [done | apply andb_false_r]. }
  assert (Hcleared : unlink_ok (acq_fs o) = true -> store cleared = NoFile).
  { intros Hu. subst cleared. unfold clearGatewayInfo. by rewrite Hstore, Hu. }
  assert (Hframe : processEnv cleared = processEnv w /\ trace cleared = trace w).
  { subst cleared. unfold clearGatewayInfo.
    by destruct (store w), (unlink_ok (acq_fs o)). }
  assert (Hrun : acquireSharedGateway dir o w = tryLaunchFresh dir o cleared).
  { rewrite acquireSharedGateway_run, Htest, (dir_ready_orb _ Hdir).
    cbn [negb]. rewrite (readGatewayInfo_stored _ _ Hstore).
    change (isGatewayAlive (acq_probe o) (parseGatewayInfo info))
      with (isGatewayAlive (acq_probe o) info).
    by rewrite Halive. }
  split; [exact Halive|]. split; [exact Hcleared|].
  split; [by rewrite Hrun, tryLaunchFresh_run|]. split; [|split].
  - intros cfg pythonPath runtimeEnv port p Hcfg Hres Hport Hspawn Hloop Hwrite.
    destruct Hframe as [Henv Htr].
    rewrite Hrun, tryLaunchFresh_run, startGatewayProcess_run.
    rewrite Hcfg, Henv, Hres, Hport, Hspawn, awaitStartup_run, Hloop, Hwrite.
    cbn. by rewrite Htr.
  - intros w' r Hacq. rewrite Hrun in Hacq.
    apply tryLaunchFresh_some in Hacq as (w1 & p & Hstart & _ & _ & ->).
    destruct (startGatewayProcess_ok _ _ _ _ _ _ Hstart)
      as (port & argv & env & _ & _ & _ & ->).
    exists (set_local (Some p) (Some (res_url r)) (emit (EvSpawn p argv dir env) cleared)),
      p, argv, env.
    split; [exact Hstart|]. split; [|reflexivity].
    cbn. apply elem_of_app. right. apply list_elem_of_here.
  - intros w' Hacq Hu. rewrite Hrun in Hacq.
    apply tryLaunchFresh_none_store in Hacq. rewrite Hacq. by apply Hcleared.
Qed.

Lemma acquire_discards_stale_record_witness :
  let r := acquireSharedGateway "/proj" (mkAcquire fs_ok probe_dead launch_ok)
             (freshWorld (Stored sample_record) ∅) in
  snd r = Some {| res_url := "http://127.0.0.1:" ++ show_port 4242;
                  isShared := true |}
  /\ trace (fst r)
     = ([] ++ [EvSpawn 77 (gateway_argv "/usr/bin/python" 4242) "/proj"
                 (kernelEnvOf posix "/proj" (filterEnv shell_env) None)])%list
  /\ store (fst r)
     = Stored {| url := "http://127.0.0.1:" ++ show_port 4242; pid := 77;
                 startedAt := 1700000000000; refCount := 1; cwd := "/proj" |}
  /\ getSharedGatewayUrl (fst r) = Some ("http://127.0.0.1:" ++ show_port 4242).
Proof.
  refine (proj1 (proj2 (proj2 (proj2
    (acquire_discards_stale_record "/proj"
       (mkAcquire fs_ok probe_dead launch_ok)
       (freshWorld (Stored sample_record) ∅) sample_record _ _ _ _))))
    ("/bin/sh", shell_env) "/usr/bin/python" (filterEnv shell_env) 4242%N 77
    _ _ _ _ _ _).
  - reflexivity.
  - left. reflexivity.
  - reflexivity.
  - left. reflexivity.
  - reflexivity.
  - vm_compute. reflexivity.
  - reflexivity.
  - reflexivity.
  - vm_compute. reflexivity.
  - reflexivity.
Defined.

(** The stale record {pid 4100, port 4100} is replaced by the record of
    the fresh backend {pid 77, port 4242}. *)
Example acquire_stale_record_replaced :
  let r := acquireSharedGateway "/proj" (mkAcquire fs_ok probe_dead launch_ok)
             (freshWorld (Stored sample_record) ∅) in
  snd r = Some {| res_url := "http://127.0.0.1:4242"; isShared := true |}
  /\ store (fst r)
     = Stored {| url := "http://127.0.0.1:4242"; pid := 77;
                 startedAt := 1700000000000; refCount := 1; cwd := "/proj" |}.
Proof. vm_compute. split; reflexivity. Qed.

(** ** Failures of acquisition *)

(** C6. Whatever is thrown inside [acquireSharedGateway] is caught
    there: when its [try] block throws, the function returns [null] (in
    the world the block left).  Every kind of failure can occur: the
    shell configuration, the runtime resolution, the port allocation,
    the spawn, an exit during startup, the startup timeout and the
    store each make the block throw on some outside. *)
Theorem acquire_failure_is_null :
  (forall dir o w w' e,
      acquireBody dir o w = (w', Throw e) ->
      snd (acquireSharedGateway dir o w) = None
      /\ (isTestMode w = false -> fst (acquireSharedGateway dir o w) = w'))
  /\ (forall e : Error,
        exists o w,
          isTestMode w = false
          /\ snd (acquireBody "/proj" o w) = Throw e
          /\ snd (acquireSharedGateway "/proj" o w) = None).
Proof.
  split.
  - intros dir o w w' e Hbody. unfold acquireSharedGateway.
    destruct (isTestMode w); [split; [done|discriminate]|].
    unfold try_catch, bind. rewrite Hbody. by split.
  - intros e.
    pose (cfg := Some ("/bin/sh", shell_env)).
    pose (w := freshWorld NoFile ∅).
    destruct e.
    + exists (mkAcquire fs_ok probe_alive
                (launch_sample None which_python (Listening 4242 true) (Some 77) polls_third)), w.
      by vm_compute.
    + exists (mkAcquire fs_ok probe_alive
                (launch_sample cfg (fun _ => None) (Listening 4242 true) (Some 77) polls_third)), w.
      by vm_compute.
    + exists (mkAcquire fs_ok probe_alive
                (launch_sample cfg which_python ListenError (Some 77) polls_third)), w.
      by vm_compute.
    + exists (mkAcquire fs_ok probe_alive
                (launch_sample cfg which_python (Listening 4242 true) None polls_third)), w.
      by vm_compute.
    + exists (mkAcquire fs_ok probe_alive
                (launch_sample cfg which_python (Listening 4242 true) (Some 77)
                   (fun _ => mkPoll true None 0))), w.
      by vm_compute.
    + exists (mkAcquire fs_ok probe_alive
                (launch_sample cfg which_python (Listening 4242 true) (Some 77)
                   (fun _ => mkPoll false (Some false) 0))), w.
      by vm_compute.
    + exists (mkAcquire fs_readonly probe_alive launch_ok), w.
      by vm_compute.
Qed.

Lemma acquire_failure_is_null_witness :
  snd (acquireSharedGateway "/proj"
         (mkAcquire fs_ok probe_alive
            (launch_sample (Some ("/bin/sh", shell_env)) (fun _ => None)
               (Listening 4242 true) (Some 77) polls_third))
         (freshWorld NoFile ∅)) = None.
Proof.
  refine (proj1 (proj1 acquire_failure_is_null "/proj" _ _
                   (freshWorld NoFile ∅) PythonNotFound _)).
  vm_compute. reflexivity.
Defined.

(** ** Release *)

Lemma releaseSharedGateway_run fs w :
  releaseSharedGateway fs w =
  if negb (isCoordinatorInitialized w) then w
  else
    match readGatewayInfo w with
    | None => w
    | Some info =>
        if write_ok fs then
          if Z.max 0 (js_sub (refCount info) 1) =? 0
          then scheduleIdleShutdown (set_store (Stored (with_refCount info 0)) w)
          else set_store
                 (Stored (with_refCount info (Z.max 0 (js_sub (refCount info) 1)))) w
        else w
    end.
Proof.
  unfold releaseSharedGateway. destruct (isCoordinatorInitialized w); [|done].
  unfold releaseBody, writeGatewayInfo. run.
  destruct (readGatewayInfo w) as [info|]; [|done].
  destruct (Z.max 0 (js_sub (refCount info) 1) =? 0), (write_ok fs); done.
Qed.

Lemma releaseSharedGateway_nonneg fs w :
  stored_nonneg w -> stored_nonneg (releaseSharedGateway fs w).
Proof.
  intros Hw. rewrite releaseSharedGateway_run.
  destruct (isCoordinatorInitialized w); [|done]. cbn [negb].
  destruct (readGatewayInfo w) as [info|]; [|done].
  destruct (write_ok fs); [|done].
  destruct (Z.max 0 (js_sub (refCount info) 1) =? 0) eqn:Hz;
    unfold stored_nonneg; cbn; lia.
Qed.

(** What a release writes for a stored record. *)
Lemma release_stored_run fs w info :
  isCoordinatorInitialized w = true ->
  store w = Stored info ->
  write_ok fs = true ->
  store (releaseSharedGateway fs w)
  = Stored (with_refCount info (Z.max 0 (js_sub (to_double (refCount info)) 1))).
Proof.
  intros Hinit Hstore Hwrite.
  rewrite releaseSharedGateway_run, Hinit. cbn [negb].
  rewrite (readGatewayInfo_stored _ _ Hstore), Hwrite.
  cbn [parseGatewayInfo refCount with_refCount].
  destruct (Z.max 0 (js_sub (to_double (refCount info)) 1) =? 0) eqn:Hz; cbn.
  - apply Z.eqb_eq in Hz. by rewrite Hz.
  - reflexivity.
Qed.

(** A record that counts [2^53 + 2] holders is written with [2^53], not
    with [2^53 + 1]: that number is no double. *)
Lemma release_above_2_53_skips_one :
  let info := with_refCount sample_record (2 ^ 53 + 2) in
  let w := set_initialized true (freshWorld (Stored info) ∅) in
  Z.max 0 (refCount info - 1) = 2 ^ 53 + 1
  /\ store (releaseSharedGateway fs_ok w) = Stored (with_refCount info (2 ^ 53))
  /\ store (releaseSharedGateway fs_ok w)
     <> Stored (with_refCount info (Z.max 0 (refCount info - 1))).
Proof. vm_compute. repeat split; try reflexivity. discriminate. Qed.

(** C5, amended. [releaseSharedGateway] changes nothing when no record
    can be read.  With a record stored (the coordinator initialised, the
    write not failing) it writes the record with another count, which is
    never negative, and which for a stored count of at most [2^53] is
    [max 0 (refCount - 1)]; and a stored count that is not negative
    stays so over any number of releases, whatever the file system
    does. *)
Theorem release_clamps_at_zero :
  (forall fs w, readGatewayInfo w = None -> releaseSharedGateway fs w = w)
  /\ (forall fs w info,
        isCoordinatorInitialized w = true ->
        store w = Stored info ->
        write_ok fs = true ->
        (exists n, store (releaseSharedGateway fs w) = Stored (with_refCount info n)
                   /\ 0 <= n)
        /\ (refCount info <= 2 ^ 53 ->
            store (releaseSharedGateway fs w)
            = Stored (with_refCount info (Z.max 0 (refCount info - 1)))))
  /\ (forall fss w, stored_nonneg w -> stored_nonneg (release_all fss w)).
Proof.
  split; [|split].
  - intros fs w Hnone. rewrite releaseSharedGateway_run, Hnone.
    by destruct (isCoordinatorInitialized w).
  - intros fs w info Hinit Hstore Hwrite.
    rewrite (release_stored_run fs w info Hinit Hstore Hwrite).
    split; [eexists; split; [reflexivity|lia]|].
    intros Hle. by rewrite release_count_exact.
  - intros fss. induction fss as [|fs fss IH]; intros w Hw; [exact Hw|].
    cbn. apply IH. by apply releaseSharedGateway_nonneg.
Qed.

Lemma release_clamps_at_zero_witness :
  store (releaseSharedGateway fs_ok
           (set_initialized true
              (freshWorld (Stored (with_refCount sample_record 0)) ∅)))
  = Stored (with_refCount sample_record 0).
Proof.
  refine (eq_trans (proj2 (proj1 (proj2 release_clamps_at_zero) fs_ok
            (set_initialized true
               (freshWorld (Stored (with_refCount sample_record 0)) ∅))
            (with_refCount sample_record 0) _ _ _) _) _);
    first [reflexivity | cbn; lia].
Defined.

(** ** Invariants of an invocation *)

Lemma clearTimeout_singleton t : clearTimeout t [t] = [].
Proof. unfold clearTimeout. cbn. by destruct (Nat.eq_dec t t). Qed.

Lemma cancelIdleShutdown_timer_inv w :
  timer_inv w ->
  idleShutdownTimer (cancelIdleShutdown w) = None
  /\ pendingTimers (cancelIdleShutdown w) = []
  /\ nextTimer (cancelIdleShutdown w) = nextTimer w.
Proof.
  intros [Hpend _]. unfold cancelIdleShutdown.
  destruct (idleShutdownTimer w) as [t|] eqn:Ht; cbn.
  - by rewrite Hpend, clearTimeout_singleton.
  - by rewrite Ht.
Qed.

Lemma scheduleIdleShutdown_timer_inv w :
  timer_inv w ->
  idleShutdownTimer (scheduleIdleShutdown w) = Some (nextTimer w)
  /\ pendingTimers (scheduleIdleShutdown w) = [nextTimer w]
  /\ nextTimer (scheduleIdleShutdown w) = S (nextTimer w).
Proof.
  intros [Hpend _]. unfold scheduleIdleShutdown. cbn.
  destruct (idleShutdownTimer w) as [t|]; rewrite Hpend;
    by rewrite ?clearTimeout_singleton.
Qed.

Lemma cancelIdleShutdown_frame w :
  let w' := cancelIdleShutdown w in
  store w' = store w /\ processEnv w' = processEnv w
  /\ localGatewayProcess w' = localGatewayProcess w
  /\ localGatewayUrl w' = localGatewayUrl w
  /\ isCoordinatorInitialized w' = isCoordinatorInitialized w
  /\ trace w' = trace w.
Proof. unfold cancelIdleShutdown. by destruct (idleShutdownTimer w). Qed.

Lemma clearGatewayInfo_frame fs w :
  let w' := clearGatewayInfo fs w in
  processEnv w' = processEnv w
  /\ localGatewayProcess w' = localGatewayProcess w
  /\ localGatewayUrl w' = localGatewayUrl w
  /\ idleShutdownTimer w' = idleShutdownTimer w
  /\ pendingTimers w' = pendingTimers w /\ nextTimer w' = nextTimer w
  /\ isCoordinatorInitialized w' = isCoordinatorInitialized w
  /\ trace w' = trace w.
Proof. unfold clearGatewayInfo. by destruct (store w), (unlink_ok fs). Qed.

Lemma shutdownLocalGateway_frame w :
  let w' := shutdownLocalGateway w in
  store w' = store w /\ processEnv w' = processEnv w
  /\ idleShutdownTimer w' = idleShutdownTimer w
  /\ pendingTimers w' = pendingTimers w /\ nextTimer w' = nextTimer w
  /\ isCoordinatorInitialized w' = isCoordinatorInitialized w.
Proof. unfold shutdownLocalGateway. by destruct (localGatewayProcess w). Qed.

Lemma fireTimer_run t fs w :
  fireTimer t fs w =
  if bool_decide (t ∈ pendingTimers w) then
    let w0 := set_timer (idleShutdownTimer w) (clearTimeout t (pendingTimers w))
                (nextTimer w) w in
    let w1 :=
      match store w with
      | Stored info =>
          if refCount info =? 0
          then clearGatewayInfo fs (shutdownLocalGateway w0)
          else w0
      | NoFile | Unreadable => w0
      end in
    set_timer None (clearTimeout t (pendingTimers w)) (nextTimer w) w1
  else w.
Proof.
  unfold fireTimer. case_bool_decide; [|done].
  unfold idleShutdownCallback, readGatewayInfo. cbn.
  destruct (store w) as [| |info]; cbn; try done.
  rewrite to_double_eqb_0.
  destruct (refCount info =? 0); [|done].
  set (w0 := set_timer _ _ _ w).
  destruct (clearGatewayInfo_frame fs (shutdownLocalGateway w0))
    as (_ & _ & _ & _ & Hp & Hn & _).
  destruct (shutdownLocalGateway_frame w0) as (_ & _ & _ & Hp' & Hn' & _).
  cbn in Hp, Hn. by rewrite Hp, Hn, Hp', Hn'.
Qed.

Lemma local_inv_mono w w' new :
  localGatewayProcess w' = localGatewayProcess w ->
  localGatewayUrl w' = localGatewayUrl w ->
  trace w' = (trace w ++ new)%list ->
  local_inv w -> local_inv w'.
Proof.
  unfold local_inv. intros -> -> ->.
  destruct (localGatewayProcess w), (localGatewayUrl w); try done.
  intros (argv & dir & env & Hin). exists argv, dir, env.
  apply elem_of_app. by left.
Qed.

Lemma local_inv_none w :
  localGatewayProcess w = None -> localGatewayUrl w = None -> local_inv w.
Proof. unfold local_inv. by intros -> ->. Qed.

(** The launch path keeps the timers and the invariants. *)
Lemma tryLaunchFresh_inv dir o w0 :
  let w' := fst (tryLaunchFresh dir o w0) in
  processEnv w' = processEnv w0
  /\ idleShutdownTimer w' = idleShutdownTimer w0
  /\ pendingTimers w' = pendingTimers w0 /\ nextTimer w' = nextTimer w0
  /\ (local_inv w0 -> local_inv w').
Proof.
  rewrite tryLaunchFresh_run, startGatewayProcess_run.
  destruct (shell_config (acq_launch o)) as [cfg|]; [|done].
  destruct (resolvePythonRuntime _ _ _ _ _ _) as [runtime|e]; [|done].
  destruct (allocatePort _) as [port|e]; [|done].
  destruct (spawn_pid (acq_launch o)) as [p|]; [|done].
  rewrite awaitStartup_run.
  destruct (fst (startupLoop (polls (acq_launch o)) 0 0%N)); cbn.
  - destruct (write_ok (acq_fs o)); cbn; repeat split; intros _;
      unfold local_inv; cbn; eexists _, _, _;
      apply elem_of_app; right; apply list_elem_of_here.
  - repeat split. intros Hinv.
    eapply (local_inv_mono w0); [| | |exact Hinv]; cbn; reflexivity.
  - repeat split. intros Hinv.
    eapply (local_inv_mono w0); [| | |exact Hinv]; cbn;
      rewrite <- ?app_assoc; reflexivity.
Qed.

Lemma acquireSharedGateway_inv dir o w :
  let w' := fst (acquireSharedGateway dir o w) in
  processEnv w' = processEnv w
  /\ (timer_inv w -> timer_inv w')
  /\ (local_inv w -> local_inv w').
Proof.
  rewrite acquireSharedGateway_run.
  destruct (isTestMode w); [done|].
  destruct (negb _); [done|].
  destruct (readGatewayInfo w) as [info|].
  - destruct (isGatewayAlive (acq_probe o) info).
    + destruct (write_ok (acq_fs o)); [|done]. cbn.
      set (w1 := set_store (Stored (with_refCount info (js_add (refCount info) 1))) w).
      destruct (cancelIdleShutdown_frame w1) as (_ & He & Hlp & Hlu & _ & Htr).
      cbn in He, Hlp, Hlu, Htr.
      split; [exact He|]. split.
      * intros Hinv.
        destruct (cancelIdleShutdown_timer_inv w1) as (Ht & Hp & Hn); [exact Hinv|].
        split; cbn; [by rewrite Ht, Hp|]. rewrite Ht. discriminate.
      * unfold local_inv. cbn. by rewrite Hlp, Hlu, Htr.
    + destruct (tryLaunchFresh_inv dir o (clearGatewayInfo (acq_fs o) w))
        as (He & Ht & Hp & Hn & Hl).
      destruct (clearGatewayInfo_frame (acq_fs o) w)
        as (He' & Hlp & Hlu & Ht' & Hp' & Hn' & _ & Htr).
      cbn in He, Ht, Hp, Hn, Hl, He', Hlp, Hlu, Ht', Hp', Hn', Htr.
      split; [congruence|]. split.
      * intros [Hpend Hfresh]. split; [by rewrite Hp, Hp', Ht, Ht'|].
        intros t. rewrite Ht, Ht', Hn, Hn'. apply Hfresh.
      * intros Hinv. apply Hl.
        apply (local_inv_mono w _ []); rewrite ?app_nil_r; done.
  - destruct (tryLaunchFresh_inv dir o w) as (He & Ht & Hp & Hn & Hl).
    cbn in He, Ht, Hp, Hn, Hl. split; [done|]. split; [|done].
    intros [Hpend Hfresh]. split; [by rewrite Hp, Ht|].
    intros t. rewrite Ht, Hn. apply Hfresh.
Qed.

Lemma releaseSharedGateway_inv fs w :
  let w' := releaseSharedGateway fs w in
  processEnv w' = processEnv w
  /\ localGatewayProcess w' = localGatewayProcess w
  /\ localGatewayUrl w' = localGatewayUrl w
  /\ trace w' = trace w
  /\ (timer_inv w -> timer_inv w').
Proof.
  rewrite releaseSharedGateway_run.
  destruct (negb _); [done|].
  destruct (readGatewayInfo w) as [info|]; [|done].
  destruct (write_ok fs); [|done].
  destruct (_ =? 0); [|done].
  set (w1 := set_store (Stored (with_refCount info 0)) w).
  split; [done|]. split; [done|]. split; [done|]. split; [done|].
  intros Hinv.
  destruct (scheduleIdleShutdown_timer_inv w1 Hinv) as (Ht & Hp & Hn).
  split; [by rewrite Ht, Hp|].
  intros t. rewrite Ht, Hn. cbn. intros [= <-]. lia.
Qed.

Lemma shutdownSharedGateway_inv fs w :
  let w' := shutdownSharedGateway fs w in
  processEnv w' = processEnv w
  /\ isCoordinatorInitialized w' = false
  /\ (timer_inv w -> timer_inv w')
  /\ (local_inv w -> local_inv w').
Proof.
  unfold shutdownSharedGateway. cbn.
  set (w1 := cancelIdleShutdown w).
  set (w2 := match readGatewayInfo w1 with
             | Some _ => clearGatewayInfo fs w1
             | None => w1
             end).
  assert (H12 : processEnv w2 = processEnv w1
                /\ localGatewayProcess w2 = localGatewayProcess w1
                /\ localGatewayUrl w2 = localGatewayUrl w1
                /\ idleShutdownTimer w2 = idleShutdownTimer w1
                /\ pendingTimers w2 = pendingTimers w1
                /\ nextTimer w2 = nextTimer w1).
  { subst w2. destruct (readGatewayInfo w1); [|done].
    by destruct (clearGatewayInfo_frame fs w1) as (? & ? & ? & ? & ? & ? & _). }
  destruct H12 as (He & Hlp & Hlu & Ht & Hp & Hn).
  destruct (shutdownLocalGateway_frame w2) as (_ & He' & Ht' & Hp' & Hn' & _).
  cbn in *.
  destruct (cancelIdleShutdown_frame w) as (_ & He1 & Hlp1 & Hlu1 & _ & Htr1).
  fold w1 in He1, Hlp1, Hlu1, Htr1. cbn in He1, Hlp1, Hlu1, Htr1.
  split; [congruence|]. split; [done|]. split.
  - intros Hinv.
    destruct (cancelIdleShutdown_timer_inv w Hinv) as (Hc1 & Hc2 & Hc3).
    fold w1 in Hc1, Hc2, Hc3.
    split; cbn; [by rewrite Hp', Ht', Hp, Ht, Hc1, Hc2|].
    intros t. rewrite Ht', Ht, Hc1. discriminate.
  - unfold local_inv, shutdownLocalGateway. cbn.
    rewrite Hlp, Hlp1.
    destruct (localGatewayProcess w) eqn:E1; cbn; [done|].
    rewrite Hlp, Hlp1, Hlu, Hlu1. by destruct (localGatewayUrl w).
Qed.

Lemma shutdownLocalGateway_locals w :
  local_inv w ->
  localGatewayProcess (shutdownLocalGateway w) = None
  /\ localGatewayUrl (shutdownLocalGateway w) = None.
Proof.
  unfold local_inv, shutdownLocalGateway.
  destruct (localGatewayProcess w) eqn:E; cbn; [done|].
  rewrite E. by destruct (localGatewayUrl w).
Qed.

Lemma fireTimer_inv t fs w :
  let w' := fireTimer t fs w in
  processEnv w' = processEnv w
  /\ (timer_inv w -> timer_inv w')
  /\ (local_inv w -> local_inv w').
Proof.
  rewrite fireTimer_run. case_bool_decide as Hin; [|done].
  set (w0 := set_timer _ (clearTimeout t (pendingTimers w)) _ w).
  set (w1 := match store w with
             | Stored info =>
                 if refCount info =? 0
                 then clearGatewayInfo fs (shutdownLocalGateway w0) else w0
             | _ => w0
             end).
  assert (Hw1 : processEnv w1 = processEnv w
                /\ (local_inv w -> local_inv w1)).
  { subst w1. destruct (store w) as [| |info]; try done.
    destruct (refCount info =? 0); [|done].
    destruct (clearGatewayInfo_frame fs (shutdownLocalGateway w0))
      as (He & Hlp & Hlu & _).
    destruct (shutdownLocalGateway_frame w0) as (_ & He' & _).
    cbn in He, Hlp, Hlu, He'. split; [congruence|].
    intros Hinv. destruct (shutdownLocalGateway_locals w0 Hinv) as [Hp0 Hu0].
    apply local_inv_none; congruence. }
  destruct Hw1 as (He & Hl). cbn. split; [exact He|]. split; [|exact Hl].
  intros [Hpend Hfresh]. split; cbn; [|discriminate].
  rewrite Hpend in Hin |- *. destruct (idleShutdownTimer w) as [t0|].
  - apply list_elem_of_singleton in Hin as ->. apply clearTimeout_singleton.
  - by apply elem_of_nil in Hin.
Qed.

Lemma freshWorld_inv f penv :
  timer_inv (freshWorld f penv) /\ local_inv (freshWorld f penv).
Proof. by repeat split. Qed.

Lemma step_inv w op :
  processEnv (step w op) = processEnv w
  /\ (timer_inv w -> timer_inv (step w op))
  /\ (local_inv w -> local_inv (step w op)).
Proof.
  destruct op as [dir o|fs|fs|t fs|f]; cbn [step].
  - apply acquireSharedGateway_inv.
  - destruct (releaseSharedGateway_inv fs w) as (He & Hlp & Hlu & Htr & Ht).
    split; [exact He|]. split; [exact Ht|].
    apply (local_inv_mono w _ []); rewrite ?app_nil_r; assumption.
  - destruct (shutdownSharedGateway_inv fs w) as (He & _ & Ht & Hl).
    split; [exact He|]. split; [exact Ht|exact Hl].
  - apply fireTimer_inv.
  - done.
Qed.

(** Whatever happens in an invocation, the invariants hold and
    [process.env] is as it was. *)
Lemma run_ops_inv ops w :
  timer_inv w -> local_inv w ->
  processEnv (run_ops ops w) = processEnv w
  /\ timer_inv (run_ops ops w) /\ local_inv (run_ops ops w).
Proof.
  revert w. induction ops as [|op ops IH]; intros w Ht Hl; [done|].
  cbn. destruct (step_inv w op) as (He & Ht' & Hl').
  destruct (IH (step w op) (Ht' Ht) (Hl' Hl)) as (He2 & Ht2 & Hl2).
  split; [by rewrite <- He|done].
Qed.

(** ** What an invocation knows of the backend *)

(** C10. In any course of an invocation, [getSharedGatewayUrl] is not
    null or [isSharedGatewayActive] is true only if this invocation
    spawned the process it holds.  An [acquireSharedGateway] that reuses
    a live backend returns its url with [isShared] true and leaves both
    answers as they were: in an invocation fresh from its start they are
    still [null] and [false]. *)
Theorem getUrl_only_in_launching_invocation :
  (forall ops f penv,
      let w := run_ops ops (freshWorld f penv) in
      getSharedGatewayUrl w <> None \/ isSharedGatewayActive w = true ->
      exists p argv dir env,
        localGatewayProcess w = Some p /\ EvSpawn p argv dir env ∈ trace w)
  /\ (forall dir o w info,
        isTestMode w = false ->
        dir_ready (acq_fs o) ->
        write_ok (acq_fs o) = true ->
        store w = Stored info ->
        isGatewayAlive (acq_probe o) info = true ->
        let w' := fst (acquireSharedGateway dir o w) in
        snd (acquireSharedGateway dir o w)
        = Some {| res_url := url info; isShared := true |}
        /\ getSharedGatewayUrl w' = getSharedGatewayUrl w
        /\ isSharedGatewayActive w' = isSharedGatewayActive w)
  /\ (forall dir o penv info,
        let w := freshWorld (Stored info) penv in
        isTestMode w = false ->
        dir_ready (acq_fs o) ->
        write_ok (acq_fs o) = true ->
        isGatewayAlive (acq_probe o) info = true ->
        let w' := fst (acquireSharedGateway dir o w) in
        snd (acquireSharedGateway dir o w)
        = Some {| res_url := url info; isShared := true |}
        /\ getSharedGatewayUrl w' = None
        /\ isSharedGatewayActive w' = false).
Proof.
  assert (Hkeep : forall dir o w info,
    isTestMode w = false -> dir_ready (acq_fs o) -> write_ok (acq_fs o) = true ->
    store w = Stored info -> isGatewayAlive (acq_probe o) info = true ->
    snd (acquireSharedGateway dir o w)
    = Some {| res_url := url info; isShared := true |}
    /\ getSharedGatewayUrl (fst (acquireSharedGateway dir o w)) = getSharedGatewayUrl w
    /\ isSharedGatewayActive (fst (acquireSharedGateway dir o w))
       = isSharedGatewayActive w).
  { intros dir o w info Htest Hdir Hwrite Hstore Halive.
    rewrite (acquire_reuse_run dir o w info) by assumption.
    set (w1 := set_store _ w).
    destruct (cancelIdleShutdown_frame w1) as (_ & _ & Hlp & Hlu & _).
    unfold getSharedGatewayUrl, isSharedGatewayActive. cbn in *.
    by rewrite Hlp, Hlu. }
  split; [|split].
  - intros ops f penv w Hknown.
    destruct (freshWorld_inv f penv) as [Ht Hl].
    destruct (run_ops_inv ops _ Ht Hl) as (_ & _ & Hinv). fold w in Hinv.
    unfold local_inv in Hinv.
    unfold getSharedGatewayUrl, isSharedGatewayActive in Hknown.
    destruct (localGatewayProcess w) as [p|], (localGatewayUrl w) as [u|];
      try done.
    + destruct Hinv as (argv & dir & env & Hin). by exists p, argv, dir, env.
    + destruct Hknown as [Hk|Hk]; [done|]. cbn in Hk. discriminate.
  - intros dir o w info Htest Hdir Hwrite Hstore Halive. by apply Hkeep.
  - intros dir o penv info w Htest Hdir Hwrite Halive.
    by apply (Hkeep dir o w info).
Qed.

Lemma getUrl_only_in_launching_invocation_witness :
  let r := acquireSharedGateway "/proj" (mkAcquire fs_ok probe_alive launch_ok)
             (freshWorld (Stored sample_record) ∅) in
  snd r = Some {| res_url := "http://127.0.0.1:4100"; isShared := true |}
  /\ getSharedGatewayUrl (fst r) = None
  /\ isSharedGatewayActive (fst r) = false.
Proof.
  refine (proj2 (proj2 getUrl_only_in_launching_invocation) "/proj"
            (mkAcquire fs_ok probe_alive launch_ok) ∅ sample_record _ _ _ _);
    try reflexivity.
  left. reflexivity.
Defined.

(** The invocation that launched does know the backend. *)
Example launching_invocation_knows_url :
  let w := fst (acquireSharedGateway "/proj" (mkAcquire fs_ok probe_alive launch_ok)
                  (freshWorld NoFile ∅)) in
  getSharedGatewayUrl w = Some "http://127.0.0.1:4242"
  /\ isSharedGatewayActive w = true.
Proof. vm_compute. split; reflexivity. Qed.

(** ** Idle shutdown *)

Lemma clearTimeout_not_in t pend : t ∉ clearTimeout t pend.
Proof.
  unfold clearTimeout. rewrite list_elem_of_In. apply remove_In.
Qed.

(** An invocation that reused the backend and is its last holder: its
    release arms the callback, and the callback, come due, unlinks the
    record and terminates nothing. *)
Lemma reusing_last_holder_terminates_nothing :
  let a := acquireSharedGateway "/proj" (mkAcquire fs_ok probe_alive launch_ok)
             (freshWorld (Stored (with_refCount sample_record 0)) ∅) in
  let w := fireTimer 0 fs_ok last_holder_world in
  snd a = Some {| res_url := "http://127.0.0.1:4100"; isShared := true |}
  /\ last_holder_world = releaseSharedGateway fs_ok (fst a)
  /\ store last_holder_world = Stored (with_refCount sample_record 0)
  /\ pendingTimers last_holder_world = [0%nat]
  /\ store w = NoFile
  /\ trace w = [].
Proof. vm_compute. repeat split; reflexivity. Qed.

(** C2, amended. (a) A release that brings the stored count to 0 writes
    0, arms one idle-shutdown callback in place of any armed before, and
    kills nothing.  (b) When an armed callback comes due, it disarms; if
    the record it reads then has [refCount] 0, the record is unlinked
    and the process this invocation launched and still holds is killed;
    an invocation that holds none kills nothing.  If there is no record
    or its count is not 0, nothing is killed and the store is untouched.
    (c) An acquire that reuses the backend disarms the callback that is
    armed when the probe has answered: that callback never runs,
    nothing is killed, and for a count [n] with [-2^53 <= n < 2^53] the
    record counts the new holder.  [during] is what the invocation does
    while the probe is awaited.  (d) When the callback comes due while
    the probe is awaited, the record counting 0, it runs as in (b): the
    process the invocation holds is killed, and the acquire returns the
    stored url all the same and writes the record back with count 1. *)
Theorem idle_shutdown_after_last_release :
  (forall fs w info,
      timer_inv w ->
      isCoordinatorInitialized w = true ->
      store w = Stored info ->
      refCount info <= 1 ->
      write_ok fs = true ->
      let w' := releaseSharedGateway fs w in
      store w' = Stored (with_refCount info 0)
      /\ idleShutdownTimer w' = Some (nextTimer w)
      /\ pendingTimers w' = [nextTimer w]
      /\ (forall t0, idleShutdownTimer w = Some t0 -> t0 ∉ pendingTimers w')
      /\ trace w' = trace w
      /\ localGatewayProcess w' = localGatewayProcess w)
  /\ (forall fs w t,
        timer_inv w ->
        t ∈ pendingTimers w ->
        let w' := fireTimer t fs w in
        idleShutdownTimer w' = None
        /\ pendingTimers w' = []
        /\ (forall info,
              store w = Stored info -> refCount info = 0 ->
              trace w' = (trace w ++ match localGatewayProcess w with
                                     | Some p => [EvKill p]
                                     | None => []
                                     end)%list
              /\ (localGatewayProcess w = None -> trace w' = trace w)
              /\ localGatewayProcess w' = None
              /\ (unlink_ok fs = true -> store w' = NoFile))
        /\ ((forall info, store w = Stored info -> refCount info <> 0) ->
            trace w' = trace w /\ store w' = store w
            /\ localGatewayProcess w' = localGatewayProcess w
            /\ localGatewayUrl w' = localGatewayUrl w))
  /\ (forall during dir o w info t,
        isTestMode w = false ->
        dir_ready (acq_fs o) ->
        write_ok (acq_fs o) = true ->
        store w = Stored info ->
        isGatewayAlive (acq_probe o) info = true ->
        timer_inv (during w) ->
        idleShutdownTimer (during w) = Some t ->
        let w' := fst (acquireSharedGatewayDuring during dir o w) in
        idleShutdownTimer w' = None
        /\ pendingTimers w' = []
        /\ (forall fs, fireTimer t fs w' = w')
        /\ trace w' = trace (during w)
        /\ localGatewayProcess w' = localGatewayProcess (during w)
        /\ (- 2 ^ 53 <= refCount info < 2 ^ 53 ->
            store w' = Stored (with_refCount info (refCount info + 1))))
  /\ (forall dir o w info t fs p,
        isTestMode w = false ->
        dir_ready (acq_fs o) ->
        write_ok (acq_fs o) = true ->
        store w = Stored info ->
        refCount info = 0 ->
        isGatewayAlive (acq_probe o) info = true ->
        t ∈ pendingTimers w ->
        localGatewayProcess w = Some p ->
        let r := acquireSharedGatewayDuring (fireTimer t fs) dir o w in
        snd r = Some {| res_url := url info; isShared := true |}
        /\ trace (fst r) = (trace w ++ [EvKill p])%list
        /\ localGatewayProcess (fst r) = None
        /\ store (fst r) = Stored (with_refCount info 1)).
Proof.
  split; [|split; [|split]].
  - intros fs w info Hinv Hinit Hstore Hrc Hwrite.
    assert (Hst : store (releaseSharedGateway fs w) = Stored (with_refCount info 0)).
    { rewrite (release_stored_run fs w info Hinit Hstore Hwrite).
      rewrite release_count_exact by lia. by replace (Z.max 0 (refCount info - 1)) with 0 by lia. }
    revert Hst.
    rewrite releaseSharedGateway_run, Hinit. cbn [negb].
    rewrite (readGatewayInfo_stored _ _ Hstore), Hwrite.
    cbn [parseGatewayInfo refCount with_refCount].
    rewrite release_count_exact by lia.
    replace (Z.max 0 (refCount info - 1)) with 0 by lia. cbn [Z.eqb].
    set (w1 := set_store (Stored _) w). intros Hst.
    destruct (scheduleIdleShutdown_timer_inv w1 Hinv) as (Ht & Hp & Hn).
    cbv zeta. rewrite Ht, Hp.
    split; [exact Hst|]. repeat split; try done.
    intros t0 Ht0 Hin. apply list_elem_of_singleton in Hin as ->.
    destruct Hinv as [_ Hfresh]. specialize (Hfresh _ Ht0).
    subst w1. cbn in Hfresh. lia.
  - intros fs w t [Hpend Hfresh] Hin.
    assert (Hclr : clearTimeout t (pendingTimers w) = []).
    { rewrite Hpend in Hin |- *. destruct (idleShutdownTimer w) as [t0|].
      - apply list_elem_of_singleton in Hin as ->. apply clearTimeout_singleton.
      - by apply elem_of_nil in Hin. }
    rewrite fireTimer_run, bool_decide_true by assumption.
    rewrite Hclr. cbn. split; [done|]. split; [done|]. split.
    + intros info Hstore Hzero. rewrite Hstore, Hzero. cbn.
      unfold clearGatewayInfo, shutdownLocalGateway. cbn.
      destruct (localGatewayProcess w) as [p|] eqn:Hlp; cbn; rewrite ?Hstore;
        destruct (unlink_ok fs); cbn; rewrite ?app_nil_r, ?Hlp; by repeat split.
    + intros Hnz. destruct (store w) as [| |info] eqn:Hstore; try done.
      destruct (refCount info =? 0) eqn:Hz; [|done].
      apply Z.eqb_eq in Hz. by destruct (Hnz info).
  - intros during dir o w info t Htest Hdir Hwrite Hstore Halive Hinv Htimer.
    rewrite (acquire_reuse_during_run during dir o w info) by assumption.
    cbn [fst].
    set (w1 := set_store (Stored _) (during w)).
    destruct (cancelIdleShutdown_timer_inv w1 Hinv) as (Ht & Hp & Hn).
    destruct (cancelIdleShutdown_frame w1) as (Hst & _ & Hlp & _ & _ & Htr).
    cbn in Hst, Hlp, Htr |- *. rewrite Ht, Hp.
    split; [done|]. split; [done|]. split.
    { intros fs. unfold fireTimer. cbn. rewrite Hp.
      rewrite bool_decide_false; [done|apply not_elem_of_nil]. }
    split; [done|]. split; [done|].
    intros Hrange. rewrite Hst. subst w1. cbn.
    by rewrite acquire_count_exact.
  - intros dir o w info t fs p Htest Hdir Hwrite Hstore Hzero Halive Hin Hlp.
    rewrite (acquire_reuse_during_run (fireTimer t fs) dir o w info) by assumption.
    cbn [fst snd]. split; [done|].
    set (w1 := set_store (Stored _) (fireTimer t fs w)).
    destruct (cancelIdleShutdown_frame w1) as (Hst & _ & Hlp1 & _ & _ & Htr).
    cbn in Hst, Hlp1, Htr |- *. rewrite Hst, Hlp1, Htr.
    rewrite acquire_count_exact by (rewrite Hzero; lia). rewrite Hzero.
    rewrite fireTimer_run, bool_decide_true by assumption.
    rewrite Hstore, Hzero. cbn.
    unfold clearGatewayInfo, shutdownLocalGateway. cbn. rewrite Hlp. cbn.
    rewrite Hstore. destruct (unlink_ok fs); by cbn.
Qed.

Lemma idle_shutdown_after_last_release_witness :
  idleShutdownTimer (fireTimer 0 fs_ok idle_world) = None
  /\ pendingTimers (fireTimer 0 fs_ok idle_world) = [].
Proof.
  assert (Hinv : timer_inv idle_world).
  { split; [reflexivity|]. intros t Ht. vm_compute in Ht.
    injection Ht as <-. vm_compute. lia. }
  assert (Hin : 0%nat ∈ pendingTimers idle_world)
    by (vm_compute; apply list_elem_of_here).
  destruct (proj1 (proj2 idle_shutdown_after_last_release) fs_ok idle_world 0%nat
              Hinv Hin) as (Ht & Hp & _).
  split; [exact Ht|exact Hp].
Defined.

(** The scenario of the specification, after the last release. *)
Example idle_world_armed :
  store idle_world
  = Stored {| url := "http://127.0.0.1:4242"; pid := 77;
              startedAt := 1700000000000; refCount := 0; cwd := "/proj" |}
  /\ idleShutdownTimer idle_world = Some 0%nat
  /\ pendingTimers idle_world = [0%nat]
  /\ filter (fun e => is_kill_of 77 e = true) (trace idle_world) = [].
Proof. vm_compute. repeat split; reflexivity. Qed.

Example idle_timeout_kills_and_clears :
  let w := fireTimer 0 fs_ok idle_world in
  store w = NoFile
  /\ filter (fun e => is_kill_of 77 e = true) (trace w) = [EvKill 77]
  /\ getSharedGatewayUrl w = None.
Proof. vm_compute. repeat split; reflexivity. Qed.

(** The callback comes due while a reusing acquire awaits the probe:
    the backend is killed and the record unlinked, and the acquire, the
    probe answered, writes the record it read back with one holder and
    returns the url. *)
Example acquire_racing_with_timeout :
  let r := acquireSharedGatewayDuring (fireTimer 0 fs_ok) "/proj"
             (mkAcquire fs_ok probe_alive launch_ok) idle_world in
  snd r = Some {| res_url := "http://127.0.0.1:4242"; isShared := true |}
  /\ filter (fun e => is_kill_of 77 e = true) (trace (fst r)) = [EvKill 77]
  /\ refCount <$> readGatewayInfo (fst r) = Some 1
  /\ getSharedGatewayUrl (fst r) = None.
Proof. vm_compute. repeat split; reflexivity. Qed.

Example acquire_before_timeout_keeps_backend :
  let w := fst (acquireSharedGateway "/proj"
                  (mkAcquire fs_ok probe_alive launch_ok) idle_world) in
  fireTimer 0 fs_ok w = w
  /\ refCount <$> readGatewayInfo w = Some 1
  /\ filter (fun e => is_kill_of 77 e = true) (trace w) = []
  /\ getSharedGatewayUrl w = Some "http://127.0.0.1:4242".
Proof. vm_compute. repeat split; reflexivity. Qed.

(** ** Test mode *)

(** Under the test flag [shutdownSharedGateway] still unlinks the stored
    record: not every operation leaves the persisted record alone. *)
Lemma test_mode_shutdown_clears_record :
  isTestMode test_world = true
  /\ store test_world = Stored sample_record
  /\ store (shutdownSharedGateway fs_ok test_world) = NoFile
  /\ store (shutdownSharedGateway fs_ok test_world) <> store test_world.
Proof. vm_compute. repeat split; try reflexivity. discriminate. Qed.

(** C7, amended. Under the test flag [acquireSharedGateway] returns
    [null] and changes nothing.  In an invocation that runs under the
    flag from its start, any calls of acquire and release leave the
    module, the record and the process table as they were, so
    [getSharedGatewayUrl] is [null] and [isSharedGatewayActive] false.
    [shutdownSharedGateway] does not look at the flag: it spawns nothing
    and writes no record, but it unlinks a stored record and kills the
    process the invocation holds. *)
Theorem test_mode_disables_acquire :
  (forall dir o w,
      isTestMode w = true -> acquireSharedGateway dir o w = (w, None))
  /\ (forall ops f penv,
        isTestMode (freshWorld f penv) = true ->
        forallb is_acquire_or_release ops = true ->
        let w := run_ops ops (freshWorld f penv) in
        w = freshWorld f penv
        /\ getSharedGatewayUrl w = None
        /\ isSharedGatewayActive w = false)
  /\ (forall fs w,
        let w' := shutdownSharedGateway fs w in
        (store w' = store w \/ store w' = NoFile)
        /\ trace w' = (trace w ++ match localGatewayProcess w with
                                  | Some p => [EvKill p]
                                  | None => []
                                  end)%list
        /\ (forall info,
              store w = Stored info -> unlink_ok fs = true -> store w' = NoFile)).
Proof.
  split; [|split].
  - intros dir o w Htest. unfold acquireSharedGateway. by rewrite Htest.
  - intros ops f penv Htest Hops.
    assert (Hfix : run_ops ops (freshWorld f penv) = freshWorld f penv).
    { induction ops as [|op ops IH]; [done|].
      cbn in Hops. apply andb_true_iff in Hops as [Hop Hops].
      cbn. destruct op as [dir o|fs| | |]; try done; cbn [step].
      - unfold acquireSharedGateway. rewrite Htest. cbn. by apply IH.
      - by apply IH. }
    cbv zeta. by rewrite Hfix.
  - intros fs w. unfold shutdownSharedGateway.
    destruct (cancelIdleShutdown_frame w) as (Hst & _ & Hlp & _ & _ & Htr).
    set (w1 := cancelIdleShutdown w) in *. cbn in Hst, Hlp, Htr.
    unfold readGatewayInfo, clearGatewayInfo. rewrite Hst.
    destruct (store w) as [| |info] eqn:Hstore; cbn.
    + unfold shutdownLocalGateway. rewrite Hlp.
      destruct (localGatewayProcess w); cbn;
        rewrite ?app_nil_r, ?Hst, ?Htr; repeat split; auto; done.
    + unfold shutdownLocalGateway. rewrite Hlp.
      destruct (localGatewayProcess w); cbn;
        rewrite ?app_nil_r, ?Hst, ?Htr; repeat split; auto; done.
    + unfold shutdownLocalGateway.
      destruct (unlink_ok fs); cbn; rewrite Hlp;
        destruct (localGatewayProcess w); cbn;
        rewrite ?app_nil_r, ?Hst, ?Htr; repeat split; auto;
        try done; intros ? [= <-]; done.
Qed.

Lemma test_mode_disables_acquire_witness :
  acquireSharedGateway "/proj" (mkAcquire fs_ok probe_alive launch_ok) test_world
  = (test_world, None).
Proof.
  apply (proj1 test_mode_disables_acquire). reflexivity.
Defined.

(** ** RuntimeResolver *)









(** A project with its interpreter in [.venv/bin/python] and no
    [VIRTUAL_ENV] set gets the runtime of the search path, and no
    virtual environment is recorded. *)
Example project_venv_directory_not_used :
  resolvePythonRuntime posix project_venv_files which_python ∅ "/proj"
    (<["PATH" := Some "/usr/bin"]> ∅)
  = Ok ("/usr/bin/python", <["PATH" := Some "/usr/bin"]> ∅).
Proof. vm_compute. reflexivity. Qed.

(** ** The scenario of the specification *)

(** acquire (launch), acquire (reuse), release, release, idle timeout. *)
Example two_holders_then_idle :
  let o := mkAcquire fs_ok probe_alive launch_ok in
  let a1 := acquireSharedGateway "/proj" o (freshWorld NoFile ∅) in
  let a2 := acquireSharedGateway "/proj" o (fst a1) in
  let r1 := releaseSharedGateway fs_ok (fst a2) in
  let r2 := releaseSharedGateway fs_ok r1 in
  let z := fireTimer 0 fs_ok r2 in
  snd a1 = Some {| res_url := "http://127.0.0.1:4242"; isShared := true |}
  /\ refCount <$> readGatewayInfo (fst a1) = Some 1
  /\ snd a2 = snd a1
  /\ refCount <$> readGatewayInfo (fst a2) = Some 2
  /\ length (filter (fun e => is_spawn e = true) (trace (fst a2))) = 1%nat
  /\ refCount <$> readGatewayInfo r1 = Some 1
  /\ pendingTimers r1 = []
  /\ refCount <$> readGatewayInfo r2 = Some 0
  /\ pendingTimers r2 = [0%nat]
  /\ store z = NoFile
  /\ filter (fun e => is_kill_of 77 e = true) (trace z) = [EvKill 77].
Proof. vm_compute. repeat split; reflexivity. Qed.

(** * Further properties *)

(** ** EnvSanitizer, exactly *)

Section FilterEnvExact.
Variables (denylist allowlist : gset string) (prefixes : list string).

Lemma filterEnvStep_lookup (filtered : Env) k v key :
  filterEnvStep denylist allowlist prefixes filtered (k, v) !! key
  = if decide (key = k)
    then match kept_value (kept_by_filter denylist allowlist prefixes k) (Some v) with
         | Some x => Some x
         | None => filtered !! k
         end
    else filtered !! key.
Proof.
  unfold filterEnvStep, kept_by_filter, kept_value.
  destruct v as [v|]; [|by case_decide; subst].
  case_decide as Hk; [subst key|].
  - case_bool_decide; cbn; [done|].
    case_bool_decide; cbn; [by rewrite lookup_insert_eq|].
    destruct (existsb _ prefixes); [by rewrite lookup_insert_eq|done].
  - repeat case_match; by rewrite ?lookup_insert_ne.
Qed.

Lemma foldl_filterEnvStep_lookup (entries : list (string * option string)) :
  NoDup entries.*1 ->
  forall (filtered : Env) (key : string),
    (forall k, k ∈ entries.*1 -> filtered !! k = None) ->
    foldl (filterEnvStep denylist allowlist prefixes) filtered entries !! key
    = match filtered !! key with
      | Some x => Some x
      | None => kept_value (kept_by_filter denylist allowlist prefixes key)
                  ((list_to_map entries : Env) !! key)
      end.
Proof.
  induction entries as [|[k v] entries IH]; intros Hnd filtered key Hfresh.
  - cbn. rewrite lookup_empty. by destruct (filtered !! key).
  - cbn in Hnd. apply NoDup_cons in Hnd as [Hk Hnd]. cbn [foldl].
    rewrite IH; [|done|].
    + rewrite filterEnvStep_lookup.
      change (list_to_map ((k, v) :: entries) : Env)
        with (<[k := v]> (list_to_map entries : Env)).
      case_decide as Hkey; [subst key|].
      * rewrite lookup_insert_eq.
        rewrite (Hfresh k) by (cbn; apply list_elem_of_here).
        rewrite (not_elem_of_list_to_map_1 _ k Hk).
        unfold kept_value. destruct v as [v|]; [|done].
        by destruct (kept_by_filter _ _ _ k).
      * by rewrite lookup_insert_ne.
    + intros k' Hk'. rewrite filterEnvStep_lookup.
      rewrite decide_False by (intros ->; contradiction).
      apply Hfresh. cbn. by apply list_elem_of_further.
Qed.

Lemma filterEnvWith_lookup (env : Env) (key : string) :
  filterEnvWith denylist allowlist prefixes env !! key
  = kept_value (kept_by_filter denylist allowlist prefixes key) (env !! key).
Proof.
  unfold filterEnvWith.
  rewrite foldl_filterEnvStep_lookup.
  - by rewrite lookup_empty, list_to_map_to_list.
  - apply NoDup_fst_map_to_list.
  - intros k _. apply lookup_empty.
Qed.
End FilterEnvExact.

(** X1. [filterEnv] keeps exactly the entries of its input that have a
    defined value and a name that is not denied and is allowed by name
    or starts with an allowed prefix, each with its value; nothing else
    is in the result, and no entry of the result is undefined. *)
Theorem filterEnv_keeps_exactly (env : Env) (key : string) (x : option string) :
  filterEnv env !! key = Some x
  <-> (exists v,
         x = Some v
         /\ env !! key = Some (Some v)
         /\ (key ∉ DEFAULT_ENV_DENYLIST)
         /\ (key ∈ DEFAULT_ENV_ALLOWLIST
             \/ (exists p, p ∈ DEFAULT_ENV_ALLOW_PREFIXES
                           /\ String.prefix p key = true))).
Proof.
  unfold filterEnv. rewrite filterEnvWith_lookup.
  unfold kept_value, kept_by_filter. split.
  - destruct (env !! key) as [[v|]|]; [|done|done].
    destruct (negb _ && _) eqn:Hkept; [|done]. intros [= <-].
    apply andb_true_iff in Hkept as [Hdeny Hallow].
    apply negb_true_iff, bool_decide_eq_false in Hdeny.
    exists v. repeat split; [done|].
    apply orb_true_iff in Hallow as [Ha|Hp].
    + left. by apply bool_decide_eq_true in Ha.
    + right. apply existsb_exists in Hp as (p & Hin & Hp).
      exists p. by rewrite list_elem_of_In.
  - intros (v & -> & -> & Hdeny & Hallow).
    rewrite (bool_decide_eq_false_2 _ Hdeny). cbn [negb andb].
    destruct Hallow as [Ha|(p & Hin & Hp)].
    + by rewrite (bool_decide_eq_true_2 _ Ha).
    + assert (Hex : existsb (fun p => String.prefix p key)
                      DEFAULT_ENV_ALLOW_PREFIXES = true).
      { apply existsb_exists. exists p. by rewrite <- list_elem_of_In. }
      rewrite Hex. by rewrite orb_true_r.
Qed.

(** X2. What [filterEnv] returns is part of its input, and filtering
    again changes nothing. *)
Theorem filterEnv_submap_idempotent (env : Env) :
  filterEnv env ⊆ env /\ filterEnv (filterEnv env) = filterEnv env.
Proof.
  split.
  - apply map_subseteq_spec. intros key x. unfold filterEnv.
    rewrite filterEnvWith_lookup. unfold kept_value.
    destruct (env !! key) as [[v|]|]; [|done|done].
    by destruct (kept_by_filter _ _ _ key).
  - apply map_eq. intros key. unfold filterEnv.
    rewrite !filterEnvWith_lookup. unfold kept_value.
    destruct (env !! key) as [[v|]|]; [|done|done].
    by destruct (kept_by_filter _ _ _ key).
Qed.

(** ** What the launcher hands to the backend *)

(** X3. The environment of the backend has [PYTHONUNBUFFERED] set to 1
    and [OMP_SHELL_SNAPSHOT] set to the snapshot path (undefined when
    there is none), and for a working directory that is not the empty
    string its [PYTHONPATH] starts with the working directory: it is the
    directory alone when the runtime environment has no [PYTHONPATH],
    and the directory, the delimiter and the inherited value otherwise. *)
Theorem kernelEnv_injected
    (plat : Platform) (dir : string) (runtimeEnv : Env) (snap : option string) :
  dir <> "" ->
  let kernelEnv := kernelEnvOf plat dir runtimeEnv snap in
  kernelEnv !! "PYTHONUNBUFFERED" = Some (Some "1")
  /\ kernelEnv !! "OMP_SHELL_SNAPSHOT" = Some snap
  /\ kernelEnv !! "PYTHONPATH"
     = Some (Some (if truthy (env_get runtimeEnv "PYTHONPATH")
                   then dir ++ delimiter plat
                        ++ default "" (env_get runtimeEnv "PYTHONPATH")
                   else dir)).
Proof.
  intros Hdir kernelEnv. subst kernelEnv. unfold kernelEnvOf.
  assert (Hd : truthy (Some dir) = true).
  { cbn. by destruct (String.eqb_spec dir ""). }
  assert (Hcat : forall rest, negb (String.eqb (dir ++ rest) "") = true).
  { intros rest. destruct dir; [done|]. reflexivity. }
  assert (Hpp : env_get (<["OMP_SHELL_SNAPSHOT" := snap]>
                           (<["PYTHONUNBUFFERED" := Some "1"]> runtimeEnv))
                  "PYTHONPATH" = env_get runtimeEnv "PYTHONPATH").
  { unfold env_get. by rewrite !lookup_insert_ne. }
  rewrite Hpp. cbn [List.filter]. rewrite Hd.
  destruct (env_get runtimeEnv "PYTHONPATH") as [old|] eqn:Hold; cbn [truthy].
  - destruct (negb (String.eqb old "")) eqn:Hne; cbn; unfold id;
      rewrite ?Hcat; cbn in Hd; rewrite ?Hd;
      (split; [|split];
       [ by rewrite !lookup_insert_ne, lookup_insert_eq by done
       | by rewrite lookup_insert_ne, lookup_insert_eq by done
       | by rewrite lookup_insert_eq ]).
  - cbn. unfold id. cbn in Hd. rewrite Hd.
    split; [|split];
      [ by rewrite !lookup_insert_ne, lookup_insert_eq by done
      | by rewrite lookup_insert_ne, lookup_insert_eq by done
      | by rewrite lookup_insert_eq ].
Qed.

Lemma kernelEnv_injected_witness :
  kernelEnvOf posix "/proj" (<["PYTHONPATH" := Some "/lib/py"]> ∅) None
    !! "PYTHONPATH" = Some (Some "/proj:/lib/py").
Proof.
  refine (proj2 (proj2 (kernelEnv_injected posix "/proj"
                          (<["PYTHONPATH" := Some "/lib/py"]> ∅) None _))).
  discriminate.
Defined.

(** The events of one launch: nothing when it fails before the spawn,
    else the spawn, followed by the kill of the same process when the
    startup times out. *)
Lemma startGatewayProcess_events dir o w :
  fst (startGatewayProcess dir o w) = w
  \/ exists cfg pythonPath runtimeEnv port p new,
       shell_config o = Some cfg
       /\ resolvePythonRuntime (platform o) (file_exists o) (which o)
            (processEnv w) dir (filterEnv (snd cfg)) = Ok (pythonPath, runtimeEnv)
       /\ allocatePort (net_listen o) = Ok port
       /\ spawn_pid o = Some p
       /\ trace (fst (startGatewayProcess dir o w)) = (trace w ++ new)%list
       /\ launch_events
            (EvSpawn p (gateway_argv pythonPath port) dir
               (kernelEnvOf (platform o) dir runtimeEnv (snapshot o))) p new.
Proof.
  rewrite startGatewayProcess_run.
  destruct (shell_config o) as [cfg|]; [|by left].
  destruct (resolvePythonRuntime _ _ _ _ _ _) as [[pythonPath runtimeEnv]|e] eqn:Hres;
    [|by left].
  destruct (allocatePort _) as [port|e] eqn:Hport; [|by left].
  destruct (spawn_pid o) as [p|]; [|by left].
  right. exists cfg, pythonPath, runtimeEnv, port, p.
  rewrite awaitStartup_run.
  destruct (fst (startupLoop (polls o) 0 0%N)); cbn.
  - eexists [_]. repeat split; try done. by left.
  - eexists [_]. repeat split; try done. by left.
  - eexists [_; _]. repeat split; try done.
    + by rewrite <- app_assoc.
    + by right.
Qed.

(** X4. A launch that succeeds has spawned one process and killed none;
    the process was told to listen on the port of the url that is
    returned; the module holds it from then on, so [getSharedGatewayUrl]
    is that url and [isSharedGatewayActive] is true; and the persisted
    record is as it was. *)
Theorem startGatewayProcess_success
    (dir : string) (o : LaunchOracle) (w w1 : World) (u : string) (p : Z) :
  startGatewayProcess dir o w = (w1, Ok (u, p)) ->
  exists port pythonPath kernelEnv,
    allocatePort (net_listen o) = Ok port
    /\ spawn_pid o = Some p
    /\ u = "http://127.0.0.1:" ++ show_port port
    /\ trace w1
       = (trace w ++ [EvSpawn p (gateway_argv pythonPath port) dir kernelEnv])%list
    /\ ("--KernelGatewayApp.port=" ++ show_port port)
       ∈ gateway_argv pythonPath port
    /\ getSharedGatewayUrl w1 = Some u
    /\ isSharedGatewayActive w1 = true
    /\ store w1 = store w.
Proof.
  rewrite startGatewayProcess_run.
  destruct (shell_config o) as [cfg|]; [|done].
  destruct (resolvePythonRuntime _ _ _ _ _ _) as [[pythonPath runtimeEnv]|e];
    [|done].
  destruct (allocatePort _) as [port|e]; [|done].
  destruct (spawn_pid o) as [p'|]; [|done].
  rewrite awaitStartup_run.
  destruct (fst (startupLoop (polls o) 0 0%N)); [|done|done].
  intros [= <- <- <-].
  exists port, pythonPath, (kernelEnvOf (platform o) dir runtimeEnv (snapshot o)).
  repeat split; try reflexivity.
  unfold gateway_argv. do 4 apply list_elem_of_further. apply list_elem_of_here.
Qed.

Lemma startGatewayProcess_success_witness :
  exists port pythonPath kernelEnv,
    allocatePort (net_listen launch_ok) = Ok port
    /\ spawn_pid launch_ok = Some 77
    /\ "http://127.0.0.1:4242" = "http://127.0.0.1:" ++ show_port port
    /\ trace (fst (startGatewayProcess "/proj" launch_ok (freshWorld NoFile ∅)))
       = ([] ++ [EvSpawn 77 (gateway_argv pythonPath port) "/proj" kernelEnv])%list
    /\ ("--KernelGatewayApp.port=" ++ show_port port)
       ∈ gateway_argv pythonPath port
    /\ getSharedGatewayUrl
         (fst (startGatewayProcess "/proj" launch_ok (freshWorld NoFile ∅)))
       = Some "http://127.0.0.1:4242"
    /\ isSharedGatewayActive
         (fst (startGatewayProcess "/proj" launch_ok (freshWorld NoFile ∅)))
       = true
    /\ store (fst (startGatewayProcess "/proj" launch_ok (freshWorld NoFile ∅)))
       = NoFile.
Proof.
  apply (startGatewayProcess_success "/proj" launch_ok (freshWorld NoFile ∅)
           (fst (startGatewayProcess "/proj" launch_ok (freshWorld NoFile ∅)))
           "http://127.0.0.1:4242" 77).
  vm_compute. reflexivity.
Defined.

(** X5. The process a launch spawns runs in the working directory that
    was asked for, with the arguments of the gateway module, and with an
    environment that has [PYTHONUNBUFFERED] set to 1 and that agrees
    with the sanitized shell environment on every variable other than
    the five the launcher sets itself. *)
Theorem spawned_env_is_sanitized
    (dir : string) (o : LaunchOracle) (w : World)
    (p : Z) (argv : list string) (d : string) (e : Env) :
  EvSpawn p argv d e ∈ trace (fst (startGatewayProcess dir o w)) ->
  EvSpawn p argv d e ∈ trace w
  \/ (d = dir
      /\ exists cfg pythonPath port,
           shell_config o = Some cfg
           /\ spawn_pid o = Some p
           /\ argv = gateway_argv pythonPath port
           /\ e !! "PYTHONUNBUFFERED" = Some (Some "1")
           /\ forall key, key ∉ injected_keys ->
                          e !! key = filterEnv (snd cfg) !! key).
Proof.
  intros Hin.
  destruct (startGatewayProcess_events dir o w)
    as [Hsame|(cfg & pythonPath & runtimeEnv & port & p' & new
               & Hcfg & Hres & Hport & Hspawn & Htr & Hnew)].
  - left. by rewrite Hsame in Hin.
  - rewrite Htr in Hin. apply elem_of_app in Hin as [Hold|Hin]; [by left|].
    right.
    assert (Hev : EvSpawn p argv d e
                  = EvSpawn p' (gateway_argv pythonPath port) dir
                      (kernelEnvOf (platform o) dir runtimeEnv (snapshot o))).
    { destruct Hnew as [-> | ->].
      - by apply list_elem_of_singleton in Hin.
      - apply elem_of_cons in Hin as [Hin|Hin]; [done|].
        by apply list_elem_of_singleton in Hin. }
    injection Hev as -> -> -> ->.
    split; [done|]. exists cfg, pythonPath, port.
    repeat split; try done.
    + unfold kernelEnvOf. case_match;
        by rewrite !lookup_insert_ne, lookup_insert_eq by done.
    + intros key Hkey. unfold injected_keys in Hkey.
      rewrite kernelEnvOf_lookup by set_solver.
      rewrite (resolvePythonRuntime_lookup _ _ _ _ _ _ _ _ _ Hres)
        by set_solver.
      reflexivity.
Qed.

Lemma spawned_env_is_sanitized_witness :
  exists cfg pythonPath port (e : Env),
    shell_config launch_ok = Some cfg
    /\ spawn_pid launch_ok = Some 77
    /\ gateway_argv "/usr/bin/python" 4242 = gateway_argv pythonPath port
    /\ e !! "PYTHONUNBUFFERED" = Some (Some "1")
    /\ forall key, key ∉ injected_keys -> e !! key = filterEnv (snd cfg) !! key.
Proof.
  destruct (spawned_env_is_sanitized "/proj" launch_ok (freshWorld NoFile ∅)
              77 (gateway_argv "/usr/bin/python" 4242) "/proj"
              (kernelEnvOf posix "/proj" (filterEnv shell_env) None))
    as [Hold|(_ & cfg & pythonPath & port & H)].
  - vm_compute. apply list_elem_of_here.
  - exfalso. by apply elem_of_nil in Hold.
  - exists cfg, pythonPath, port,
      (kernelEnvOf posix "/proj" (filterEnv shell_env) None). exact H.
Defined.

(** ** What an invocation does to processes *)

Lemma tryLaunchFresh_trace dir o w0 :
  trace (fst (tryLaunchFresh dir o w0))
  = trace (fst (startGatewayProcess dir (acq_launch o) w0)).
Proof.
  rewrite tryLaunchFresh_run.
  destruct (startGatewayProcess dir (acq_launch o) w0) as [w1 [started|e]];
    [|done].
  by destruct (write_ok (acq_fs o)).
Qed.

Lemma acquireSharedGateway_events dir o w :
  exists new,
    trace (fst (acquireSharedGateway dir o w)) = (trace w ++ new)%list
    /\ (new = [] \/ exists p argv env, launch_events (EvSpawn p argv dir env) p new).
Proof.
  assert (Hlaunch : forall w0, trace w0 = trace w ->
    exists new,
      trace (fst (tryLaunchFresh dir o w0)) = (trace w ++ new)%list
      /\ (new = [] \/ exists p argv env, launch_events (EvSpawn p argv dir env) p new)).
  { intros w0 Hw0. rewrite tryLaunchFresh_trace.
    destruct (startGatewayProcess_events dir (acq_launch o) w0)
      as [Hsame|(cfg & pythonPath & runtimeEnv & port & p & new
                 & _ & _ & _ & _ & Htr & Hnew)].
    - exists []. rewrite Hsame, Hw0, app_nil_r. by split; [|left].
    - exists new. rewrite Htr, Hw0. split; [done|]. right. by eexists _, _, _. }
  rewrite acquireSharedGateway_run.
  destruct (isTestMode w); [exists []; rewrite app_nil_r; by split; [|left]|].
  destruct (negb _); [exists []; rewrite app_nil_r; by split; [|left]|].
  destruct (readGatewayInfo w) as [info|]; [|by apply Hlaunch].
  destruct (isGatewayAlive (acq_probe o) info).
  - exists []. rewrite app_nil_r. split; [|by left].
    destruct (write_ok (acq_fs o)); [|done]. cbn.
    by destruct (cancelIdleShutdown_frame
                   (set_store (Stored (with_refCount info (js_add (refCount info) 1))) w))
      as (_ & _ & _ & _ & _ & ->).
  - apply Hlaunch.
    by destruct (clearGatewayInfo_frame (acq_fs o) w) as (_ & _ & _ & _ & _ & _ & _ & ->).
Qed.

Lemma shutdownLocalGateway_trace w :
  trace (shutdownLocalGateway w)
  = (trace w ++ match localGatewayProcess w with
                | Some p => [EvKill p]
                | None => []
                end)%list.
Proof.
  unfold shutdownLocalGateway.
  destruct (localGatewayProcess w); cbn; by rewrite ?app_nil_r.
Qed.

Lemma shutdownSharedGateway_trace fs w :
  trace (shutdownSharedGateway fs w)
  = (trace w ++ match localGatewayProcess w with
                | Some p => [EvKill p]
                | None => []
                end)%list.
Proof.
  unfold shutdownSharedGateway. cbn.
  destruct (cancelIdleShutdown_frame w) as (_ & _ & Hlp & _ & _ & Htr).
  set (w1 := cancelIdleShutdown w) in *. cbn in Hlp, Htr.
  set (w2 := match readGatewayInfo w1 with
             | Some _ => clearGatewayInfo fs w1
             | None => w1
             end).
  assert (H2 : localGatewayProcess w2 = localGatewayProcess w1
               /\ trace w2 = trace w1).
  { subst w2. destruct (readGatewayInfo w1); [|done].
    by destruct (clearGatewayInfo_frame fs w1) as (_ & ? & _ & _ & _ & _ & _ & ?). }
  destruct H2 as [Hlp2 Htr2].
  by rewrite shutdownLocalGateway_trace, Hlp2, Htr2, Hlp, Htr.
Qed.

Lemma fireTimer_trace t fs w :
  trace (fireTimer t fs w) = trace w
  \/ exists p, localGatewayProcess w = Some p
               /\ trace (fireTimer t fs w) = (trace w ++ [EvKill p])%list.
Proof.
  rewrite fireTimer_run. case_bool_decide; [|by left]. cbn.
  destruct (store w) as [| |info]; [by left|by left|].
  destruct (refCount info =? 0); [|by left].
  set (w0 := set_timer _ _ _ w).
  destruct (clearGatewayInfo_frame fs (shutdownLocalGateway w0))
    as (_ & _ & _ & _ & _ & _ & _ & Htr).
  cbn in Htr. rewrite Htr, shutdownLocalGateway_trace. cbn.
  destruct (localGatewayProcess w) as [p|]; [right; by exists p|left].
  by rewrite app_nil_r.
Qed.

Lemma local_inv_spawned w p :
  local_inv w -> localGatewayProcess w = Some p ->
  exists argv dir env, EvSpawn p argv dir env ∈ trace w.
Proof.
  unfold local_inv. intros Hinv Hp. rewrite Hp in Hinv.
  by destruct (localGatewayUrl w).
Qed.

Lemma step_kills_spawned w op :
  local_inv w -> kills_spawned (trace w) -> kills_spawned (trace (step w op)).
Proof.
  intros Hinv Hks.
  assert (Hext : forall new,
    (forall p, EvKill p ∈ new ->
               exists argv dir env, EvSpawn p argv dir env ∈ (trace w ++ new)%list) ->
    kills_spawned (trace w ++ new)).
  { intros new Hnew p Hin. apply elem_of_app in Hin as [Hin|Hin].
    - destruct (Hks p Hin) as (argv & dir & env & Hsp).
      exists argv, dir, env. apply elem_of_app. by left.
    - by apply Hnew. }
  assert (Hkill : forall p, localGatewayProcess w = Some p ->
    kills_spawned (trace w ++ [EvKill p])).
  { intros p Hp. apply Hext. intros q Hq.
    apply list_elem_of_singleton in Hq as [= ->].
    destruct (local_inv_spawned w p Hinv Hp) as (argv & dir & env & Hsp).
    exists argv, dir, env. apply elem_of_app. by left. }
  destruct op as [dir o|fs|fs|t fs|f]; cbn [step].
  - destruct (acquireSharedGateway_events dir o w) as (new & -> & Hnew).
    apply Hext. intros q Hq.
    destruct Hnew as [-> | (p & argv & env & [-> | ->])].
    + by apply elem_of_nil in Hq.
    + apply list_elem_of_singleton in Hq. discriminate.
    + apply elem_of_cons in Hq as [Hq|Hq]; [discriminate|].
      apply list_elem_of_singleton in Hq as [= ->].
      exists argv, dir, env. apply elem_of_app. right. apply list_elem_of_here.
  - by destruct (releaseSharedGateway_inv fs w) as (_ & _ & _ & -> & _).
  - rewrite shutdownSharedGateway_trace.
    destruct (localGatewayProcess w) as [p|] eqn:Hp; [by apply Hkill|].
    by rewrite app_nil_r.
  - destruct (fireTimer_trace t fs w) as [-> | (p & Hp & ->)]; [done|].
    by apply Hkill.
  - done.
Qed.

(** X6. Whatever happens in an invocation, every process the module
    kills is one it spawned itself: the idle-shutdown callback,
    [shutdownSharedGateway] and the startup timeout never kill the
    backend of another invocation. *)
Theorem only_own_processes_killed
    (ops : list Op) (f : StoreFile) (penv : gmap string string) :
  kills_spawned (trace (run_ops ops (freshWorld f penv))).
Proof.
  assert (Hgen : forall w,
    local_inv w -> kills_spawned (trace w) -> kills_spawned (trace (run_ops ops w))).
  { induction ops as [|op ops IH]; intros w Hinv Hks; [exact Hks|].
    cbn. apply IH.
    - by apply (step_inv w op).
    - by apply step_kills_spawned. }
  apply Hgen.
  - apply freshWorld_inv.
  - intros p Hin. by apply elem_of_nil in Hin.
Qed.

(** X7. Whatever happens in an invocation, at most one idle-shutdown
    callback is armed, and it is the one whose handle the module holds:
    none is armed when the handle is null.  [process.env] is never
    changed. *)
Theorem at_most_one_idle_timer
    (ops : list Op) (f : StoreFile) (penv : gmap string string) :
  let w := run_ops ops (freshWorld f penv) in
  pendingTimers w = match idleShutdownTimer w with
                    | Some t => [t]
                    | None => []
                    end
  /\ (length (pendingTimers w) <= 1)%nat
  /\ processEnv w = penv.
Proof.
  destruct (freshWorld_inv f penv) as [Ht Hl].
  destruct (run_ops_inv ops _ Ht Hl) as (He & [Hpend _] & _).
  cbv zeta. split; [exact Hpend|]. split; [|exact He].
  rewrite Hpend. destruct (idleShutdownTimer _); cbn; lia.
Qed.

(** X8. Whatever happens in an invocation, the process handle and the
    url are set and cleared together: [isSharedGatewayActive] is true
    exactly when [getSharedGatewayUrl] is not null. *)
Theorem isActive_iff_url
    (ops : list Op) (f : StoreFile) (penv : gmap string string) :
  let w := run_ops ops (freshWorld f penv) in
  isSharedGatewayActive w = true <-> getSharedGatewayUrl w <> None.
Proof.
  destruct (freshWorld_inv f penv) as [Ht Hl].
  destruct (run_ops_inv ops _ Ht Hl) as (_ & _ & Hinv).
  cbv zeta. unfold local_inv in Hinv.
  unfold isSharedGatewayActive, getSharedGatewayUrl.
  destruct (localGatewayProcess _), (localGatewayUrl _); cbn; try done.
  all: split; [discriminate|congruence].
Qed.

(** ** What acquire leaves behind *)

Lemma tryLaunchFresh_none_initialized dir o w0 w' :
  tryLaunchFresh dir o w0 = (w', None) ->
  isCoordinatorInitialized w' = isCoordinatorInitialized w0.
Proof.
  rewrite tryLaunchFresh_run.
  pose proof (startGatewayProcess_frame dir (acq_launch o) w0) as Hframe.
  destruct (startGatewayProcess dir (acq_launch o) w0) as [w1 [started|e]];
    cbn in Hframe; destruct Hframe as (_ & _ & _ & _ & _ & Hinit).
  - destruct (write_ok (acq_fs o)); [done|]. by intros [= <-].
  - by intros [= <-].
Qed.

(** X9. When [acquireSharedGateway] returns a result, test mode is off,
    [isShared] is true, the coordinator is initialised, and the record
    now stored carries the url returned.  Either a live record was
    reused, and the new record is the old one but for its count, which
    is raised by one when the old count [n] has [-2^53 <= n < 2^53], and
    no process was touched; or a backend was launched, and the record
    is fresh with count 1 for the working directory asked for and the
    pid of the one process spawned, which the module now holds. *)
Theorem acquire_success_record
    (dir : string) (o : AcquireOracle) (w w' : World) (r : AcquireResult) :
  acquireSharedGateway dir o w = (w', Some r) ->
  isTestMode w = false
  /\ isShared r = true
  /\ isCoordinatorInitialized w' = true
  /\ exists info,
       store w' = Stored info
       /\ url info = res_url r
       /\ ( (exists old,
               store w = Stored old
               /\ isGatewayAlive (acq_probe o) old = true
               /\ (exists n,
                     info = with_refCount old n
                     /\ (- 2 ^ 53 <= refCount old < 2 ^ 53 -> n = refCount old + 1))
               /\ trace w' = trace w)
            \/ (refCount info = 1
                /\ cwd info = dir
                /\ getSharedGatewayUrl w' = Some (res_url r)
                /\ exists argv env,
                     trace w' = (trace w ++ [EvSpawn (pid info) argv dir env])%list) ).
Proof.
  assert (Hlaunch : forall w0, trace w0 = trace w ->
    tryLaunchFresh dir o w0 = (w', Some r) ->
    isShared r = true
    /\ isCoordinatorInitialized w' = true
    /\ exists info,
         store w' = Stored info /\ url info = res_url r
         /\ refCount info = 1 /\ cwd info = dir
         /\ getSharedGatewayUrl w' = Some (res_url r)
         /\ exists argv env,
              trace w' = (trace w ++ [EvSpawn (pid info) argv dir env])%list).
  { intros w0 Hw0 Hrun.
    apply tryLaunchFresh_some in Hrun as (w1 & p & Hstart & _ & Hshared & ->).
    destruct (startGatewayProcess_ok _ _ _ _ _ _ Hstart)
      as (port & argv & env & _ & _ & _ & ->).
    split; [done|]. split; [done|]. eexists. split; [reflexivity|].
    cbn. repeat split. exists argv, env. by rewrite Hw0. }
  rewrite acquireSharedGateway_run.
  destruct (isTestMode w); [done|].
  intros Hrun. split; [done|]. revert Hrun.
  destruct (negb _); [done|].
  destruct (readGatewayInfo w) as [old|] eqn:Hread.
  - destruct (isGatewayAlive (acq_probe o) old) eqn:Halive.
    + destruct (write_ok (acq_fs o)); [|done]. intros [= <- <-].
      split; [done|]. split; [done|].
      set (w1 := set_store (Stored (with_refCount old (js_add (refCount old) 1))) w).
      destruct (cancelIdleShutdown_frame w1) as (Hst & _ & _ & _ & _ & Htr).
      cbn in Hst, Htr |- *. exists (with_refCount old (js_add (refCount old) 1)).
      split; [exact Hst|]. split; [done|]. left.
      apply readGatewayInfo_some in Hread as (raw & Hraw & ->).
      exists raw. split; [done|]. split; [exact Halive|]. split; [|done].
      exists (js_add (to_double (refCount raw)) 1). split; [done|].
      apply acquire_count_exact.
    + intros Hrun.
      destruct (clearGatewayInfo_frame (acq_fs o) w)
        as (_ & _ & _ & _ & _ & _ & _ & Htr).
      destruct (Hlaunch _ Htr Hrun)
        as (Hs & Hi & info & Hst & Hu & Hrc & Hcwd & Hget & Hev).
      split; [done|]. split; [done|]. exists info. split; [done|]. split; [done|].
      by right.
  - intros Hrun.
    destruct (Hlaunch w eq_refl Hrun)
      as (Hs & Hi & info & Hst & Hu & Hrc & Hcwd & Hget & Hev).
    split; [done|]. split; [done|]. exists info. split; [done|]. split; [done|].
    by right.
Qed.

Lemma acquire_success_record_witness :
  isTestMode (freshWorld NoFile ∅) = false
  /\ isCoordinatorInitialized
       (fst (acquireSharedGateway "/proj" (mkAcquire fs_ok probe_alive launch_ok)
               (freshWorld NoFile ∅))) = true.
Proof.
  destruct (acquire_success_record "/proj" (mkAcquire fs_ok probe_alive launch_ok)
              (freshWorld NoFile ∅)
              (fst (acquireSharedGateway "/proj"
                      (mkAcquire fs_ok probe_alive launch_ok) (freshWorld NoFile ∅)))
              {| res_url := "http://127.0.0.1:4242"; isShared := true |})
    as (Ht & _ & Hi & _).
  - vm_compute. reflexivity.
  - split; [exact Ht|exact Hi].
Defined.

(** X10. When [acquireSharedGateway] returns [null], it has written no
    record and has not initialised the coordinator, and the timers are
    as they were: the store is as before, or it lost a record that was
    found not alive. *)
Theorem acquire_null_store
    (dir : string) (o : AcquireOracle) (w w' : World) :
  acquireSharedGateway dir o w = (w', None) ->
  isCoordinatorInitialized w' = isCoordinatorInitialized w
  /\ idleShutdownTimer w' = idleShutdownTimer w
  /\ pendingTimers w' = pendingTimers w
  /\ (store w' = store w
      \/ (store w' = NoFile
          /\ exists old, store w = Stored old
                         /\ isGatewayAlive (acq_probe o) old = false)).
Proof.
  rewrite acquireSharedGateway_run.
  destruct (isTestMode w); [by intros [= <-]; repeat split; left|].
  destruct (negb _); [by intros [= <-]; repeat split; left|].
  destruct (readGatewayInfo w) as [old|] eqn:Hread.
  - destruct (isGatewayAlive (acq_probe o) old) eqn:Halive.
    + destruct (write_ok (acq_fs o)); [done|].
      by intros [= <-]; repeat split; left.
    + intros Hrun.
      destruct (clearGatewayInfo_frame (acq_fs o) w)
        as (_ & _ & _ & Ht & Hp & _ & Hi & _).
      destruct (tryLaunchFresh_inv dir o (clearGatewayInfo (acq_fs o) w))
        as (_ & Ht' & Hp' & _).
      rewrite Hrun in Ht', Hp'. cbn in Ht, Hp, Hi, Ht', Hp'.
      rewrite (tryLaunchFresh_none_initialized _ _ _ _ Hrun), Hi.
      rewrite (tryLaunchFresh_none_store _ _ _ _ Hrun), Ht', Hp', Ht, Hp.
      repeat split.
      apply readGatewayInfo_some in Hread as (raw & Hstore & ->).
      unfold clearGatewayInfo. rewrite Hstore.
      destruct (unlink_ok (acq_fs o)); cbn.
      * right. split; [done|]. by exists raw.
      * by left.
  - intros Hrun.
    destruct (tryLaunchFresh_inv dir o w) as (_ & Ht' & Hp' & _).
    rewrite Hrun in Ht', Hp'. cbn in Ht', Hp'.
    rewrite (tryLaunchFresh_none_initialized _ _ _ _ Hrun).
    rewrite (tryLaunchFresh_none_store _ _ _ _ Hrun), Ht', Hp'.
    by repeat split; left.
Qed.

Lemma acquire_null_store_witness :
  store (fst (acquireSharedGateway "/proj"
                (mkAcquire fs_ok probe_dead
                   (launch_sample (Some ("/bin/sh", shell_env)) (fun _ => None)
                      (Listening 4242 true) (Some 77) polls_third))
                (freshWorld (Stored sample_record) ∅))) = NoFile.
Proof.
  destruct (acquire_null_store "/proj"
              (mkAcquire fs_ok probe_dead
                 (launch_sample (Some ("/bin/sh", shell_env)) (fun _ => None)
                    (Listening 4242 true) (Some 77) polls_third))
              (freshWorld (Stored sample_record) ∅)
              (fst (acquireSharedGateway "/proj"
                      (mkAcquire fs_ok probe_dead
                         (launch_sample (Some ("/bin/sh", shell_env)) (fun _ => None)
                            (Listening 4242 true) (Some 77) polls_third))
                      (freshWorld (Stored sample_record) ∅))))
    as (_ & _ & _ & [Hsame|[Hnone _]]).
  - vm_compute. reflexivity.
  - vm_compute in Hsame. discriminate.
  - exact Hnone.
Defined.

(** ** Counting holders *)

Lemma with_refCount_same (info : GatewayInfo) :
  with_refCount info (refCount info) = info.
Proof. by destruct info. Qed.

Lemma acquire_reuse_step dir o w info n :
  isTestMode w = false ->
  store w = Stored (with_refCount info n) ->
  reuses info o ->
  - 2 ^ 53 <= n < 2 ^ 53 ->
  let w' := fst (acquireSharedGateway dir o w) in
  store w' = Stored (with_refCount info (n + 1))
  /\ isTestMode w' = false
  /\ isCoordinatorInitialized w' = true
  /\ trace w' = trace w.
Proof.
  intros Htest Hstore (Hdir & Hwrite & Halive) Hn.
  rewrite (acquire_reuse_run dir o w (with_refCount info n)) by done.
  cbn [fst refCount with_refCount]. rewrite acquire_count_exact by done.
  set (w1 := set_store _ w).
  destruct (cancelIdleShutdown_frame w1) as (Hst & He & _ & _ & _ & Htr).
  cbn in Hst, He, Htr. repeat split; try done.
  unfold isTestMode in *. cbn. by rewrite He.
Qed.

Lemma acquire_all_count dir os :
  forall w info n,
    isTestMode w = false ->
    store w = Stored (with_refCount info n) ->
    Forall (reuses info) os ->
    - 2 ^ 53 <= n ->
    n + Z.of_nat (length os) <= 2 ^ 53 ->
    store (acquire_all dir os w)
    = Stored (with_refCount info (n + Z.of_nat (length os)))
    /\ trace (acquire_all dir os w) = trace w
    /\ (os <> [] -> isCoordinatorInitialized (acquire_all dir os w) = true).
Proof.
  induction os as [|o os IH]; intros w info n Htest Hstore Hall Hlo Hhi.
  - cbn. rewrite Z.add_0_r. by repeat split.
  - apply Forall_cons in Hall as [Ho Hall]. cbn [length] in Hhi.
    destruct (acquire_reuse_step dir o w info n Htest Hstore Ho)
      as (Hst & Ht & Hi & Htr); [lia|].
    destruct (IH _ info (n + 1) Ht Hst Hall) as (Hst' & Htr' & Hi'); [lia|lia|].
    change (acquire_all dir (o :: os) w)
      with (acquire_all dir os (fst (acquireSharedGateway dir o w))).
    cbn [length].
    split; [|split].
    + rewrite Hst'. f_equal. f_equal. lia.
    + by rewrite Htr'.
    + intros _. destruct os as [|o' os']; [exact Hi|]. by apply Hi'.
Qed.

Lemma release_all_count fss :
  forall w info n,
    isCoordinatorInitialized w = true ->
    store w = Stored (with_refCount info n) ->
    Forall (fun fs => write_ok fs = true) fss ->
    Z.of_nat (length fss) <= n ->
    n <= 2 ^ 53 ->
    store (release_all fss w)
    = Stored (with_refCount info (n - Z.of_nat (length fss)))
    /\ trace (release_all fss w) = trace w.
Proof.
  induction fss as [|fs fss IH]; intros w info n Hinit Hstore Hall Hlen Hhi.
  - cbn. rewrite Z.sub_0_r. by split.
  - apply Forall_cons in Hall as [Hfs Hall]. cbn [length] in Hlen.
    change (release_all (fs :: fss) w)
      with (release_all fss (releaseSharedGateway fs w)).
    assert (Hstep : store (releaseSharedGateway fs w)
                    = Stored (with_refCount info (n - 1))
                    /\ isCoordinatorInitialized (releaseSharedGateway fs w) = true
                    /\ trace (releaseSharedGateway fs w) = trace w).
    { split.
      - rewrite (release_stored_run fs w _ Hinit Hstore Hfs).
        cbn [refCount with_refCount]. rewrite release_count_exact by done.
        by replace (Z.max 0 (n - 1)) with (n - 1) by lia.
      - destruct (releaseSharedGateway_inv fs w) as (_ & _ & _ & Htr & _).
        split; [|exact Htr].
        rewrite releaseSharedGateway_run, Hinit. cbn [negb].
        destruct (readGatewayInfo w) as [i|]; [|done].
        destruct (write_ok fs); [|done].
        by destruct (_ =? 0). }
    destruct Hstep as (Hst & Hi & Htr).
    destruct (IH _ info (n - 1) Hi Hst Hall) as (Hst' & Htr'); [lia|lia|].
    split; [|by rewrite Htr'].
    rewrite Hst'. f_equal. f_equal. cbn [length]. lia.
Qed.

(** X11. Acquires that reuse a live backend and releases balance: from
    a stored count that is not negative, [k] reusing acquires that bring
    it to no more than [2^53], followed by [j <= k] releases (writes not
    failing), leave the record with the count raised by [k - j] and
    otherwise as it was, no process being spawned or killed on the way;
    with as many releases as acquires the record is back to what it
    was. *)
Theorem acquires_and_releases_balance
    (dir : string) (os : list AcquireOracle) (fss : list FsOracle)
    (w : World) (info : GatewayInfo) :
  isTestMode w = false ->
  store w = Stored info ->
  0 <= refCount info ->
  refCount info + Z.of_nat (length os) <= 2 ^ 53 ->
  Forall (reuses info) os ->
  Forall (fun fs => write_ok fs = true) fss ->
  (length fss <= length os)%nat ->
  let w' := release_all fss (acquire_all dir os w) in
  store w'
  = Stored (with_refCount info
              (refCount info + Z.of_nat (length os) - Z.of_nat (length fss)))
  /\ trace w' = trace w
  /\ (length fss = length os -> store w' = Stored info).
Proof.
  intros Htest Hstore Hrc Hhi Hos Hfss Hlen.
  rewrite <- (with_refCount_same info) in Hstore.
  destruct (acquire_all_count dir os w info (refCount info) Htest Hstore Hos)
    as (Hst & Htr & Hi); [lia|lia|].
  destruct os as [|o os].
  - destruct fss; [|cbn in Hlen; lia]. cbn.
    rewrite Z.add_0_r, Z.sub_0_r. rewrite with_refCount_same in *.
    cbn in Hst. by repeat split.
  - specialize (Hi ltac:(discriminate)).
    destruct (release_all_count fss _ info _ Hi Hst Hfss) as (Hst' & Htr');
      [lia|lia|].
    cbv zeta. split; [exact Hst'|]. split; [by rewrite Htr'|].
    intros Heq. rewrite Hst', Heq.
    replace (refCount info + Z.of_nat (length (o :: os))
             - Z.of_nat (length (o :: os))) with (refCount info) by lia.
    by rewrite with_refCount_same.
Qed.

Lemma acquires_and_releases_balance_witness :
  store (release_all [fs_ok; fs_ok]
           (acquire_all "/proj"
              [mkAcquire fs_ok probe_alive launch_ok;
               mkAcquire fs_ok probe_alive launch_ok]
              (freshWorld (Stored sample_record) ∅)))
  = Stored sample_record.
Proof.
  refine (proj2 (proj2 (acquires_and_releases_balance "/proj"
            [mkAcquire fs_ok probe_alive launch_ok;
             mkAcquire fs_ok probe_alive launch_ok]
            [fs_ok; fs_ok] (freshWorld (Stored sample_record) ∅) sample_record
            _ _ _ _ _ _ _)) _);
    first [reflexivity | cbn; lia | repeat constructor].
Defined.

(** X12. [releaseSharedGateway] never spawns or kills a process and
    never changes what the module holds; of a stored record it changes
    the count only, leaving url, pid, start time and working directory;
    the new count is the old one or is not negative, and for an old
    count of at most [2^53] it is the old one or the old one less one,
    not below 0. *)
Theorem release_changes_count_only (fs : FsOracle) (w : World) :
  let w' := releaseSharedGateway fs w in
  trace w' = trace w
  /\ localGatewayProcess w' = localGatewayProcess w
  /\ localGatewayUrl w' = localGatewayUrl w
  /\ isCoordinatorInitialized w' = isCoordinatorInitialized w
  /\ forall info,
       store w = Stored info ->
       exists n,
         store w' = Stored (with_refCount info n)
         /\ (n = refCount info \/ 0 <= n)
         /\ (refCount info <= 2 ^ 53 ->
             n = refCount info \/ n = Z.max 0 (refCount info - 1)).
Proof.
  destruct (releaseSharedGateway_inv fs w) as (_ & Hlp & Hlu & Htr & _).
  cbv zeta. split; [exact Htr|]. split; [exact Hlp|]. split; [exact Hlu|].
  assert (Hsame : forall info, store w = Stored info ->
    exists n, store w = Stored (with_refCount info n)
              /\ (n = refCount info \/ 0 <= n)
              /\ (refCount info <= 2 ^ 53 ->
                  n = refCount info \/ n = Z.max 0 (refCount info - 1))).
  { intros info Hstore. exists (refCount info). rewrite with_refCount_same.
    split; [done|]. split; [by left|]. intros _. by left. }
  destruct (isCoordinatorInitialized w) eqn:Hinit.
  - destruct (write_ok fs) eqn:Hwrite.
    + split.
      * rewrite releaseSharedGateway_run, Hinit. cbn [negb].
        destruct (readGatewayInfo w) as [i|]; [|done]. rewrite Hwrite.
        by destruct (_ =? 0).
      * intros info Hstore.
        exists (Z.max 0 (js_sub (to_double (refCount info)) 1)).
        split; [by apply release_stored_run|]. split; [right; lia|].
        intros Hle. right. by apply release_count_exact.
    + rewrite releaseSharedGateway_run, Hinit. cbn [negb].
      destruct (readGatewayInfo w) as [i|]; rewrite ?Hwrite; by split.
  - unfold releaseSharedGateway. rewrite Hinit. by split.
Qed.

Lemma release_changes_count_only_witness :
  let w := set_initialized true (freshWorld (Stored sample_record) ∅) in
  exists n,
    store (releaseSharedGateway fs_ok w) = Stored (with_refCount sample_record n)
    /\ (n = 2 \/ n = Z.max 0 (2 - 1)).
Proof.
  destruct (proj2 (proj2 (proj2 (proj2
             (release_changes_count_only fs_ok
                (set_initialized true (freshWorld (Stored sample_record) ∅))))))
             sample_record eq_refl) as (n & Hst & _ & Hn).
  exists n. split; [exact Hst|]. apply Hn. cbn. lia.
Defined.

(** ** Shutdown and timers *)

Lemma shutdownSharedGateway_fields fs w :
  timer_inv w -> local_inv w ->
  let w' := shutdownSharedGateway fs w in
  idleShutdownTimer w' = None /\ pendingTimers w' = []
  /\ localGatewayProcess w' = None /\ localGatewayUrl w' = None
  /\ isCoordinatorInitialized w' = false
  /\ (store w' = store w \/ store w' = NoFile)
  /\ (forall info, store w = Stored info -> unlink_ok fs = true ->
                   store w' = NoFile).
Proof.
  intros Ht Hl. unfold shutdownSharedGateway. cbn.
  destruct (cancelIdleShutdown_timer_inv w Ht) as (Hc1 & Hc2 & _).
  destruct (cancelIdleShutdown_frame w) as (Hst1 & _ & Hlp1 & Hlu1 & _ & Htr1).
  set (w1 := cancelIdleShutdown w) in *. cbn in Hst1, Hlp1, Hlu1, Htr1.
  set (w2 := match readGatewayInfo w1 with
             | Some _ => clearGatewayInfo fs w1
             | None => w1
             end).
  assert (H2 : localGatewayProcess w2 = localGatewayProcess w1
               /\ localGatewayUrl w2 = localGatewayUrl w1
               /\ idleShutdownTimer w2 = idleShutdownTimer w1
               /\ pendingTimers w2 = pendingTimers w1
               /\ trace w2 = trace w1).
  { subst w2. destruct (readGatewayInfo w1); [|done].
    by destruct (clearGatewayInfo_frame fs w1) as (_ & ? & ? & ? & ? & _ & _ & ?). }
  destruct H2 as (Hlp2 & Hlu2 & Ht2 & Hp2 & Htr2).
  assert (Hl2 : local_inv w2).
  { apply (local_inv_mono w _ []); rewrite ?app_nil_r; congruence. }
  destruct (shutdownLocalGateway_locals w2 Hl2) as [Hp Hu].
  destruct (shutdownLocalGateway_frame w2) as (Hst3 & _ & Ht3 & Hp3 & _).
  cbn in Hst3, Ht3, Hp3.
  rewrite Ht3, Hp3, Ht2, Hp2, Hc1, Hc2, Hp, Hu, Hst3.
  repeat split.
  - subst w2. unfold readGatewayInfo, clearGatewayInfo. rewrite Hst1.
    destruct (store w); [by left|by left|].
    destruct (unlink_ok fs); [by right|left]. by rewrite Hst1.
  - intros info Hstore Hu'. subst w2.
    unfold readGatewayInfo, clearGatewayInfo. by rewrite Hst1, Hstore, Hu'.
Qed.

(** X13. After [shutdownSharedGateway], at any point of an invocation,
    the module holds no backend, no idle-shutdown callback is armed and
    the coordinator is not initialised: [getSharedGatewayUrl] is null,
    [isSharedGatewayActive] is false, a release changes nothing, and no
    timer that comes due does anything.  A record that was stored is
    gone when the unlink goes through, and no record is ever written. *)
Theorem after_shutdown
    (ops : list Op) (f : StoreFile) (penv : gmap string string) (fs : FsOracle) :
  let w0 := run_ops ops (freshWorld f penv) in
  let w := shutdownSharedGateway fs w0 in
  getSharedGatewayUrl w = None
  /\ isSharedGatewayActive w = false
  /\ pendingTimers w = []
  /\ (forall fs', releaseSharedGateway fs' w = w)
  /\ (forall t fs', fireTimer t fs' w = w)
  /\ (store w = store w0 \/ store w = NoFile)
  /\ (forall info, store w0 = Stored info -> unlink_ok fs = true ->
                   store w = NoFile).
Proof.
  destruct (freshWorld_inv f penv) as [Ht Hl].
  destruct (run_ops_inv ops _ Ht Hl) as (_ & Ht0 & Hl0).
  cbv zeta.
  destruct (shutdownSharedGateway_fields fs _ Ht0 Hl0)
    as (Htm & Hpend & Hlp & Hlu & Hinit & Hst & Hgone).
  cbv zeta in Htm, Hpend, Hlp, Hlu, Hinit, Hst, Hgone.
  unfold getSharedGatewayUrl, isSharedGatewayActive.
  rewrite Hlp, Hlu, Hpend.
  split; [done|]. split; [done|]. split; [done|]. split; [|split; [|by split]].
  - intros fs'. unfold releaseSharedGateway. by rewrite Hinit.
  - intros t fs'. unfold fireTimer. rewrite Hpend.
    rewrite bool_decide_false; [done|apply not_elem_of_nil].
Qed.

Lemma acquire_some_count dir o w w' r :
  acquireSharedGateway dir o w = (w', Some r) ->
  exists info,
    store w' = Stored info
    /\ (refCount info = 1
        \/ exists old, store w = Stored old
                       /\ refCount info = js_add (to_double (refCount old)) 1).
Proof.
  rewrite acquireSharedGateway_run.
  destruct (isTestMode w); [done|]. destruct (negb _); [done|].
  assert (Hlaunch : forall w0, tryLaunchFresh dir o w0 = (w', Some r) ->
    exists info, store w' = Stored info
                 /\ (refCount info = 1
                     \/ exists old, store w = Stored old
                                    /\ refCount info
                                       = js_add (to_double (refCount old)) 1)).
  { intros w0 Hrun.
    apply tryLaunchFresh_some in Hrun as (w1 & p & _ & _ & _ & ->).
    eexists. split; [reflexivity|]. by left. }
  destruct (readGatewayInfo w) as [old|] eqn:Hread; [|apply Hlaunch].
  destruct (isGatewayAlive (acq_probe o) old); [|apply Hlaunch].
  destruct (write_ok (acq_fs o)); [|done]. intros [= <- <-].
  set (w1 := set_store (Stored (with_refCount old (js_add (refCount old) 1))) w).
  destruct (cancelIdleShutdown_frame w1) as (Hst & _).
  cbn in Hst |- *. exists (with_refCount old (js_add (refCount old) 1)).
  split; [exact Hst|]. right.
  apply readGatewayInfo_some in Hread as (raw & Hraw & ->).
  by exists raw.
Qed.

(** X15. A backend that was just acquired is safe from a stale idle
    timer: after an [acquireSharedGateway] that returned a result (the
    count stored before not being negative), a timer that comes due
    kills nothing and leaves the record and what the module holds as
    they are. *)
Theorem acquired_backend_survives_timer
    (dir : string) (o : AcquireOracle) (w w' : World) (r : AcquireResult)
    (t : nat) (fs : FsOracle) :
  stored_nonneg w ->
  acquireSharedGateway dir o w = (w', Some r) ->
  let w'' := fireTimer t fs w' in
  trace w'' = trace w'
  /\ store w'' = store w'
  /\ localGatewayProcess w'' = localGatewayProcess w'
  /\ getSharedGatewayUrl w'' = getSharedGatewayUrl w'.
Proof.
  intros Hnn Hacq.
  destruct (acquire_some_count _ _ _ _ _ Hacq) as (info & Hst & Hcount).
  assert (Hpos : (refCount info =? 0) = false).
  { apply Z.eqb_neq. destruct Hcount as [-> | (old & Hold & ->)]; [done|].
    unfold stored_nonneg in Hnn. rewrite Hold in Hnn.
    pose proof (to_double_nonneg _ Hnn).
    pose proof (to_double_le_1 (to_double (refCount old) + 1)).
    unfold js_add. lia. }
  cbv zeta. rewrite fireTimer_run. case_bool_decide; [|done].
  rewrite Hst, Hpos. by cbn.
Qed.

Lemma acquired_backend_survives_timer_witness :
  let w' := fst (acquireSharedGateway "/proj"
                   (mkAcquire fs_ok probe_alive launch_ok) idle_world) in
  trace (fireTimer 0 fs_ok w') = trace w'
  /\ store (fireTimer 0 fs_ok w') = store w'.
Proof.
  destruct (acquired_backend_survives_timer "/proj"
              (mkAcquire fs_ok probe_alive launch_ok) idle_world
              (fst (acquireSharedGateway "/proj"
                      (mkAcquire fs_ok probe_alive launch_ok) idle_world))
              {| res_url := "http://127.0.0.1:4242"; isShared := true |}
              0%nat fs_ok) as (Htr & Hst & _).
  - vm_compute. discriminate.
  - vm_compute. reflexivity.
  - split; [exact Htr|exact Hst].
Defined.

(** ** How many processes *)

Lemma spawn_count_app tr new :
  spawn_count (tr ++ new) = (spawn_count tr + spawn_count new)%nat.
Proof. unfold spawn_count. by rewrite List.filter_app, length_app. Qed.

Lemma step_spawn_count w op :
  (spawn_count (trace (step w op))
   <= spawn_count (trace w) + (if is_acquire op then 1 else 0))%nat.
Proof.
  destruct op as [dir o|fs|fs|t fs|f]; cbn [step is_acquire].
  - destruct (acquireSharedGateway_events dir o w) as (new & -> & Hnew).
    rewrite spawn_count_app.
    destruct Hnew as [-> | (p & argv & env & [-> | ->])]; cbn; lia.
  - destruct (releaseSharedGateway_inv fs w) as (_ & _ & _ & -> & _). lia.
  - rewrite shutdownSharedGateway_trace, spawn_count_app.
    destruct (localGatewayProcess w); cbn; lia.
  - destruct (fireTimer_trace t fs w) as [-> | (p & _ & ->)]; [lia|].
    rewrite spawn_count_app. cbn. lia.
  - change (trace (set_store f w)) with (trace w). lia.
Qed.

(** X16. Only [acquireSharedGateway] starts processes, and one call
    starts at most one: in any course of an invocation the number of
    processes spawned is at most the number of acquires. *)
Theorem spawns_bounded_by_acquires
    (ops : list Op) (f : StoreFile) (penv : gmap string string) :
  (spawn_count (trace (run_ops ops (freshWorld f penv)))
   <= length (List.filter is_acquire ops))%nat.
Proof.
  assert (Hgen : forall w,
    (spawn_count (trace (run_ops ops w))
     <= spawn_count (trace w) + length (List.filter is_acquire ops))%nat).
  { induction ops as [|op ops IH]; intros w; [cbn; lia|].
    cbn [run_ops foldl]. fold (run_ops ops (step w op)).
    specialize (IH (step w op)). pose proof (step_spawn_count w op) as Hstep.
    cbn [List.filter]. destruct (is_acquire op); cbn [length]; lia. }
  specialize (Hgen (freshWorld f penv)). cbn in Hgen. exact Hgen.
Qed.

(** ** Failures of the launcher *)

(** X17. Runtime resolution fails with the not-found error only, and
    only when the search path has no usable [python] (and no usable
    [python3] when [python] is absent).  With a non-empty [python] on
    the search path it always succeeds.  The interpreter it returns was
    seen to exist in a virtual environment or was found on the search
    path. *)
Theorem resolvePythonRuntime_failure
    (plat : Platform) (exists_ : string -> bool)
    (which_ : string -> option string) (penv : gmap string string)
    (dir : string) (baseEnv : Env) :
  (forall e,
      resolvePythonRuntime plat exists_ which_ penv dir baseEnv = Throw e ->
      e = PythonNotFound
      /\ not_on_path which_ "python"
      /\ (which_ "python" = None -> not_on_path which_ "python3"))
  /\ (forall p,
        which_ "python" = Some p -> p <> "" ->
        exists py env,
          resolvePythonRuntime plat exists_ which_ penv dir baseEnv = Ok (py, env))
  /\ (forall py env,
        resolvePythonRuntime plat exists_ which_ penv dir baseEnv = Ok (py, env) ->
        exists_ py = true \/ which_ "python" = Some py
        \/ (which_ "python" = None /\ which_ "python3" = Some py)).
Proof.
  assert (Hfb : forall env,
    match nullish_or (which_ "python") (which_ "python3") with
    | Some p => if truthy (Some p) then Ok (p, env) else Throw PythonNotFound
    | None => Throw PythonNotFound
    end = spec_search_path which_ env).
  { intros env. unfold spec_search_path, nullish_or.
    by destruct (which_ "python") as [p|]. }
  assert (Hshape :
    (exists venv,
        exists_ (venv_python plat venv) = true
        /\ resolvePythonRuntime plat exists_ which_ penv dir baseEnv
           = Ok (venv_python plat venv,
                 prepend_path plat (venv_bin plat venv)
                   (<["VIRTUAL_ENV" := Some venv]> baseEnv)))
    \/ (exists env,
          resolvePythonRuntime plat exists_ which_ penv dir baseEnv
          = spec_search_path which_ env)).
  { unfold resolvePythonRuntime. cbv zeta.
    destruct (nullish_or (env_get baseEnv "VIRTUAL_ENV")
                (resolveVenvPath plat exists_ penv dir)) as [v|];
      [|right; eexists; apply Hfb].
    destruct (truthy (Some v)); [|right; eexists; apply Hfb].
    fold (venv_bin plat v). fold (venv_python plat v).
    destruct (exists_ (venv_python plat v)) eqn:Hex.
    - left. exists v. by split.
    - right. eexists. apply Hfb. }
  assert (Hnonempty : forall p, p <> "" -> truthy (Some p) = true).
  { intros p Hp. cbn. by destruct (String.eqb_spec p ""). }
  assert (Hempty : forall p, truthy (Some p) = false -> p = "").
  { intros p. cbn. by destruct (String.eqb_spec p ""). }
  split; [|split].
  - intros e Hthrow.
    destruct Hshape as [(venv & _ & Hok)|(env & Hsearch)]; [congruence|].
    rewrite Hsearch in Hthrow. unfold spec_search_path, not_on_path in *.
    destruct (which_ "python") as [p|].
    + destruct (truthy (Some p)) eqn:Hp; [done|].
      injection Hthrow as <-. apply Hempty in Hp as ->.
      split; [done|]. split; [by right|done].
    + destruct (which_ "python3") as [p|].
      * destruct (truthy (Some p)) eqn:Hp; [done|].
        injection Hthrow as <-. apply Hempty in Hp as ->.
        split; [done|]. split; [by left|]. intros _. by right.
      * injection Hthrow as <-. split; [done|]. split; [by left|]. intros _. by left.
  - intros p Hwhich Hp.
    destruct Hshape as [(venv & _ & Hok)|(env & Hsearch)]; [by eexists _, _|].
    rewrite Hsearch. unfold spec_search_path. rewrite Hwhich, (Hnonempty p Hp).
    by eexists _, _.
  - intros py env Hok.
    destruct Hshape as [(venv & Hex & Hok')|(env' & Hsearch)].
    + rewrite Hok' in Hok. injection Hok as <- _. by left.
    + rewrite Hsearch in Hok. unfold spec_search_path in Hok. right.
      destruct (which_ "python") as [p|].
      * destruct (truthy (Some p)); [|done]. injection Hok as <- _. by left.
      * destruct (which_ "python3") as [p|]; [|done].
        destruct (truthy (Some p)); [|done]. injection Hok as <- _. by right.
Qed.

Lemma resolvePythonRuntime_failure_witness :
  exists py env,
    resolvePythonRuntime posix (fun _ => false) which_python ∅ "/proj" venv_env
    = Ok (py, env).
Proof.
  refine (proj1 (proj2 (resolvePythonRuntime_failure posix (fun _ => false)
            which_python ∅ "/proj" venv_env)) "/usr/bin/python" _ _).
  - reflexivity.
  - discriminate.
Defined.

Lemma resolvePythonRuntime_throws plat ex wh penv dir baseEnv e :
  resolvePythonRuntime plat ex wh penv dir baseEnv = Throw e ->
  e = PythonNotFound.
Proof.
  unfold resolvePythonRuntime, nullish_or. intros Hthrow.
  repeat case_match; try discriminate; by injection Hthrow as <-.
Qed.

(** X18. A launch that fails leaves the persisted record and what the
    module holds as they were.  When it fails before the process is
    there (shell configuration, runtime, port, spawn) nothing at all has
    changed; when the process exited during startup, it was spawned and
    not killed; when the startup timed out, the process spawned was
    killed.  A launch never fails with a store error. *)
Theorem startGatewayProcess_failure
    (dir : string) (o : LaunchOracle) (w w1 : World) (e : Error) :
  startGatewayProcess dir o w = (w1, Throw e) ->
  store w1 = store w
  /\ localGatewayProcess w1 = localGatewayProcess w
  /\ localGatewayUrl w1 = localGatewayUrl w
  /\ match e with
     | GatewayStartupTimeout =>
         exists p argv env,
           trace w1 = (trace w ++ [EvSpawn p argv dir env; EvKill p])%list
     | GatewayExited =>
         exists p argv env, trace w1 = (trace w ++ [EvSpawn p argv dir env])%list
     | StoreError => False
     | ShellConfigFailed | PythonNotFound | PortAllocationFailed | SpawnFailed =>
         w1 = w
     end.
Proof.
  rewrite startGatewayProcess_run.
  destruct (shell_config o) as [cfg|]; [|by intros [= <- <-]].
  destruct (resolvePythonRuntime _ _ _ _ _ _) as [[pythonPath runtimeEnv]|e0] eqn:Hres.
  2:{ intros [= <- <-].
      by rewrite (resolvePythonRuntime_throws _ _ _ _ _ _ _ Hres). }
  destruct (allocatePort _) as [port|e0] eqn:Hport.
  2:{ intros [= <- <-]. unfold allocatePort in Hport.
      destruct (net_listen o) as [| |port [|]]; try discriminate;
        by injection Hport as <-. }
  destruct (spawn_pid o) as [p|]; [|by intros [= <- <-]].
  rewrite awaitStartup_run.
  destruct (fst (startupLoop (polls o) 0 0%N)); [done| |].
  - intros [= <- <-]. repeat split; try done. by eexists _, _, _.
  - intros [= <- <-]. repeat split; try done.
    eexists _, _, _. cbn. by rewrite <- app_assoc.
Qed.

Lemma startGatewayProcess_failure_witness :
  exists p argv env,
    trace (fst (startGatewayProcess "/proj"
                  (launch_sample (Some ("/bin/sh", shell_env)) which_python
                     (Listening 4242 true) (Some 77)
                     (fun _ => mkPoll false (Some false) 0))
                  (freshWorld NoFile ∅)))
    = ([] ++ [EvSpawn p argv "/proj" env; EvKill p])%list.
Proof.
  destruct (startGatewayProcess_failure "/proj"
              (launch_sample (Some ("/bin/sh", shell_env)) which_python
                 (Listening 4242 true) (Some 77)
                 (fun _ => mkPoll false (Some false) 0))
              (freshWorld NoFile ∅)
              (fst (startGatewayProcess "/proj"
                      (launch_sample (Some ("/bin/sh", shell_env)) which_python
                         (Listening 4242 true) (Some 77)
                         (fun _ => mkPoll false (Some false) 0))
                      (freshWorld NoFile ∅)))
              GatewayStartupTimeout) as (_ & _ & _ & Hkill).
  - vm_compute. reflexivity.
  - exact Hkill.
Defined.
